(** * The abc.net.au extractors of youtube-dl ([youtube_dl/extractor/abc.py])

    A shallow embedding of the two extractors of the module, [ABCIE] (news
    articles) and [ABCIViewIE] (iview catch-up programmes), together with the
    properties their description states about them.

    Conventions of the embedding:
    - a Python text string is kept as the sequence of the bytes of its UTF-8
      encoding (a Rocq [string]), so that [s.encode('utf-8')] is the identity
      on the representation;
    - a value decoded from JSON is a [json]; Python's [None] is [JNull];
    - an exception is a value of [exn], a computation that may raise returns
      a [result];
    - the services of the host framework ([InfoExtractor], [..utils], the
      network and the regular expression engine) are the fields of a record
      [Host]; what an extractor asks of the network and the clock it reads
      are threaded through a [World]. *)

From Stdlib Require Import ZArith List String Ascii Bool Lia QArith.
From Stdlib Require Import DecimalString DecimalZ DecimalPos Permutation.
Import ListNotations.

Local Close Scope Q_scope.
Local Open Scope list_scope.
Local Open Scope string_scope.
Local Open Scope Z_scope.

(* ================================================================== *)
(** ** Bytes and text *)

Definition bytes := list Z.

Definition bytes_of_string (s : string) : bytes :=
  map (fun c => Z.of_N (N_of_ascii c)) (list_ascii_of_string s).

(** [str.encode('utf-8')] on the UTF-8 representation of the text. *)
Definition encode_utf8 (s : string) : bytes := bytes_of_string s.

Definition hex_digit (d : Z) : ascii :=
  if d <? 10 then ascii_of_N (Z.to_N (48 + d))
  else ascii_of_N (Z.to_N (87 + d)).

(** [binascii.hexlify]: two lowercase hexadecimal digits for each byte. *)
Fixpoint hexlify (bs : bytes) : string :=
  match bs with
  | [] => EmptyString
  | b :: rest =>
      String (hex_digit (Z.shiftr b 4))
        (String (hex_digit (Z.land b 15)) (hexlify rest))
  end.

Definition lower_hex (c : ascii) : bool :=
  let n := Z.of_N (N_of_ascii c) in
  ((48 <=? n) && (n <=? 57)) || ((97 <=? n) && (n <=? 102)).

Fixpoint all_chars (p : ascii -> bool) (s : string) : bool :=
  match s with
  | EmptyString => true
  | String c rest => p c && all_chars p rest
  end.

(** [str(n)] for a Python integer. *)
Definition str_of_int (n : Z) : string := NilZero.string_of_int (Z.to_int n).

(* ================================================================== *)
(** ** [hashlib.sha256] (FIPS 180-4) on 32-bit words kept in [Z] *)

Module SHA256.

Definition mask32 : Z := 0xffffffff.
Definition add32 (x y : Z) : Z := (x + y) mod 2 ^ 32.
Definition not32 (x : Z) : Z := Z.lxor x mask32.
Definition shl32 (x n : Z) : Z := Z.land (Z.shiftl x n) mask32.
Definition rotr (n x : Z) : Z := Z.lor (Z.shiftr x n) (shl32 x (32 - n)).
Definition shr (n x : Z) : Z := Z.shiftr x n.

Definition Ch (x y z : Z) : Z := Z.lxor (Z.land x y) (Z.land (not32 x) z).
Definition Maj (x y z : Z) : Z :=
  Z.lxor (Z.lxor (Z.land x y) (Z.land x z)) (Z.land y z).
Definition Sigma0 (x : Z) : Z := Z.lxor (Z.lxor (rotr 2 x) (rotr 13 x)) (rotr 22 x).
Definition Sigma1 (x : Z) : Z := Z.lxor (Z.lxor (rotr 6 x) (rotr 11 x)) (rotr 25 x).
Definition sigma0 (x : Z) : Z := Z.lxor (Z.lxor (rotr 7 x) (rotr 18 x)) (shr 3 x).
Definition sigma1 (x : Z) : Z := Z.lxor (Z.lxor (rotr 17 x) (rotr 19 x)) (shr 10 x).

(** The constants are fractional parts of roots of the first primes, to 32
    bits: of the cube roots of the first 64 for the round constants, of the
    square roots of the first 8 for the initial hash value. *)
Definition primes : list Z :=
  [ 2; 3; 5; 7; 11; 13; 17; 19; 23; 29; 31; 37; 41; 43; 47; 53;
    59; 61; 67; 71; 73; 79; 83; 89; 97; 101; 103; 107; 109; 113; 127; 131;
    137; 139; 149; 151; 157; 163; 167; 173; 179; 181; 191; 193; 197; 199; 211; 223;
    227; 229; 233; 239; 241; 251; 257; 263; 269; 271; 277; 281; 283; 293; 307; 311 ].

(** The integer cube root, one bit at a time from bit [n - 1] down. *)
Fixpoint cube_root_bits (n : nat) (x r : Z) : Z :=
  match n with
  | O => r
  | S k =>
      let c := r + 2 ^ Z.of_nat k in
      if c * c * c <=? x then cube_root_bits k x c else cube_root_bits k x r
  end.

Definition cube_root_fraction (p : Z) : Z := cube_root_bits 36 (p * 2 ^ 96) 0 mod 2 ^ 32.
Definition square_root_fraction (p : Z) : Z := Z.sqrt (p * 2 ^ 64) mod 2 ^ 32.

Definition K : list Z := Eval vm_compute in map cube_root_fraction primes.
Definition H0 : list Z := Eval vm_compute in map square_root_fraction (firstn 8 primes).

(** Padding: a 1 bit, zero bits up to 56 modulo 64 bytes, and the length of
    the message in bits as a 64-bit big-endian integer. *)
Fixpoint be_bytes (n : nat) (x : Z) : bytes :=
  match n with
  | O => []
  | S k => Z.land (Z.shiftr x (8 * Z.of_nat k)) 255 :: be_bytes k x
  end.

Definition pad (msg : bytes) : bytes :=
  let len := Z.of_nat (List.length msg) in
  let zeros := Z.to_nat ((55 - len) mod 64) in
  (msg ++ [128] ++ repeat 0 zeros ++ be_bytes 8 (8 * len))%list.

Fixpoint words_of_bytes (bs : bytes) : list Z :=
  match bs with
  | a :: b :: c :: d :: rest =>
      Z.lor (Z.lor (Z.shiftl a 24) (Z.shiftl b 16)) (Z.lor (Z.shiftl c 8) d)
      :: words_of_bytes rest
  | _ => []
  end.

Fixpoint chunks16 (n : nat) (ws : list Z) : list (list Z) :=
  match n with
  | O => []
  | S k =>
      match ws with
      | [] => []
      | _ => firstn 16 ws :: chunks16 k (skipn 16 ws)
      end
  end.

(** The message schedule, most recent word first:
    [W_t = sigma1 W_(t-2) + W_(t-7) + sigma0 W_(t-15) + W_(t-16)]. *)
Fixpoint extend (n : nat) (rev_w : list Z) : list Z :=
  match n with
  | O => rev_w
  | S k =>
      let w :=
        add32 (add32 (sigma1 (nth 1 rev_w 0)) (nth 6 rev_w 0))
              (add32 (sigma0 (nth 14 rev_w 0)) (nth 15 rev_w 0)) in
      extend k (w :: rev_w)
  end.

Definition schedule (block : list Z) : list Z := rev (extend 48 (rev block)).

Record regs := Regs { ra : Z; rb : Z; rc : Z; rd : Z; re : Z; rf : Z; rg : Z; rh : Z }.

Definition round (s : regs) (kw : Z * Z) : regs :=
  let t1 := add32 (add32 (add32 (rh s) (Sigma1 (re s))) (Ch (re s) (rf s) (rg s)))
                  (add32 (fst kw) (snd kw)) in
  let t2 := add32 (Sigma0 (ra s)) (Maj (ra s) (rb s) (rc s)) in
  Regs (add32 t1 t2) (ra s) (rb s) (rc s) (add32 (rd s) t1) (re s) (rf s) (rg s).

Definition regs_of (h : list Z) : regs :=
  Regs (nth 0 h 0) (nth 1 h 0) (nth 2 h 0) (nth 3 h 0)
       (nth 4 h 0) (nth 5 h 0) (nth 6 h 0) (nth 7 h 0).

Definition list_of (s : regs) : list Z :=
  [ra s; rb s; rc s; rd s; re s; rf s; rg s; rh s].

Definition compress (h : list Z) (block : list Z) : list Z :=
  let s := fold_left round (combine K (schedule block)) (regs_of h) in
  map (fun p => add32 (fst p) (snd p)) (combine h (list_of s)).

Definition digest (msg : bytes) : bytes :=
  let ws := words_of_bytes (pad msg) in
  let h := fold_left compress (chunks16 (List.length ws) ws) H0 in
  flat_map (be_bytes 4) h.

Definition block_size : nat := 64.

End SHA256.

(* ================================================================== *)
(** ** [hmac.new(key, msg, hashlib.sha256)] *)

Module HMAC.

(** [key.ljust(blocksize, b'\0')] after a key longer than a block has been
    replaced by its digest. *)
Definition block_key (key : bytes) : bytes :=
  let k := if (SHA256.block_size <? List.length key)%nat then SHA256.digest key else key in
  (k ++ repeat 0 (SHA256.block_size - List.length k))%list.

(** [key.translate(trans_36)] and [key.translate(trans_5C)]. *)
Definition trans_36 (k : bytes) : bytes := map (fun b => Z.lxor b 0x36) k.
Definition trans_5C (k : bytes) : bytes := map (fun b => Z.lxor b 0x5c) k.

Definition digest (key msg : bytes) : bytes :=
  let k := block_key key in
  let inner := SHA256.digest (trans_36 k ++ msg)%list in
  SHA256.digest (trans_5C k ++ inner)%list.

Definition hexdigest (key msg : bytes) : string := hexlify (digest key msg).

End HMAC.

(* ================================================================== *)
(** ** Python values *)

(** A value as [json.loads] builds it.  [JFloat] carries the exact value of a
    finite double; a dict is the list of its items, looked up from the
    front. *)
#[warnings="-register-all"]
Inductive json : Type :=
  | JNull
  | JBool (b : bool)
  | JInt (n : Z)
  | JFloat (q : Q)
  | JStr (s : string)
  | JList (l : list json)
  | JObj (items : list (string * json)).

Inductive exn : Type :=
  | ExtractorError (msg : string) (expected : bool)
  | RegexNotFoundError (name : string)
  | KeyError (key : string)
  | AttributeError (attr : string)
  | TypeError
  | IndexError
  | StopIteration
  | UnboundLocalError (name : string)
  | HostError (what : string).

Inductive result (A : Type) : Type :=
  | Ok (a : A)
  | Raise (e : exn).
Arguments Ok {A} a.
Arguments Raise {A} e.

Definition rbind {A B} (r : result A) (k : A -> result B) : result B :=
  match r with
  | Ok a => k a
  | Raise e => Raise e
  end.

Declare Scope result_scope.
Delimit Scope result_scope with result.
Notation "x <~ c ;; k" := (rbind c (fun x => k))
  (at level 100, c at next level, right associativity) : result_scope.
Local Open Scope result_scope.

(** A list comprehension whose element expression may raise. *)
Fixpoint comprehension {A B} (f : A -> result B) (l : list A) : result (list B) :=
  match l with
  | [] => Ok []
  | a :: rest =>
      b <~ f a ;;
      bs <~ comprehension f rest ;;
      Ok (b :: bs)
  end.

Fixpoint lookup (k : string) (items : list (string * json)) : option json :=
  match items with
  | [] => None
  | (k', v) :: rest => if (k' =? k)%string then Some v else lookup k rest
  end.

(** [bool(v)]. *)
Definition truthy (v : json) : bool :=
  match v with
  | JNull => false
  | JBool b => b
  | JInt n => negb (n =? 0)
  | JFloat q => negb (Qeq_bool q 0)
  | JStr s => negb (s =? EmptyString)%string
  | JList l => match l with [] => false | _ => true end
  | JObj items => match items with [] => false | _ => true end
  end.

(** [d.get(key, default)]: only a dict has the method. *)
Definition get_default (d : json) (key : string) (default : json) : result json :=
  match d with
  | JObj items =>
      match lookup key items with
      | Some v => Ok v
      | None => Ok default
      end
  | _ => Raise (AttributeError "get")
  end.

(** [d.get(key)]. *)
Definition get (d : json) (key : string) : result json := get_default d key JNull.

(** [d[key]] for a text key. *)
Definition getitem (d : json) (key : string) : result json :=
  match d with
  | JObj items =>
      match lookup key items with
      | Some v => Ok v
      | None => Raise (KeyError key)
      end
  | _ => Raise TypeError
  end.

(** [a or b], the right operand evaluated only when the left one is false. *)
Definition py_or (a : json) (b : result json) : result json :=
  if truthy a then Ok a else b.

(** [v == s] for a text literal [s]. *)
Definition eq_str (v : json) (s : string) : bool :=
  match v with
  | JStr s' => (s' =? s)%string
  | _ => false
  end.

(** The characters of a text: a byte of the form 10xxxxxx continues the
    character begun before it. *)
Definition is_continuation (c : ascii) : bool :=
  Z.land (Z.of_N (N_of_ascii c)) 0xc0 =? 0x80.

Fixpoint chars_from_right (s : string) : string * list string :=
  match s with
  | EmptyString => (EmptyString, [])
  | String c rest =>
      let '(pending, cs) := chars_from_right rest in
      if is_continuation c then (String c pending, cs)
      else (EmptyString, String c pending :: cs)
  end.

Definition chars (s : string) : list string :=
  let '(pending, cs) := chars_from_right s in
  match pending with
  | EmptyString => cs
  | _ => pending :: cs
  end.

(** [s[:n]]. *)
Definition slice_to (n : nat) (s : string) : string :=
  String.concat EmptyString (firstn n (chars s)).

(** [iter(v)]: the elements of a list, the keys of a dict, the characters of
    a text. *)
Definition iter (v : json) : result (list json) :=
  match v with
  | JList l => Ok l
  | JObj items => Ok (map (fun kv => JStr (fst kv)) items)
  | JStr s => Ok (map JStr (chars s))
  | _ => Raise TypeError
  end.

(* ================================================================== *)
(** ** The result dictionaries *)

Module MediaFormat.
Record t : Type := Make {
  url : json;
  vcodec : json;
  width : option Z;
  height : option Z;
  tbr : option Z;
  filesize : option Z
}.
End MediaFormat.

(** [url_result(url)]. *)
Record UrlResult : Type := url_result { redirect_url : json }.

Module Subtitle.
Record t : Type := Make { url : json; ext : string }.
End Subtitle.

(** The dictionary [ABCIE._real_extract] returns for a video or audio. *)
Module Article.
Record t : Type := Make {
  id : string;
  title : string;
  formats : list MediaFormat.t;
  description : option string;
  thumbnail : option string
}.
End Article.

(** The dictionary [ABCIViewIE._real_extract] returns. *)
Module Episode.
Record t : Type := Make {
  id : string;
  title : json;
  description : option string;
  thumbnail : option string;
  duration : option Z;
  timestamp : option Z;
  series : json;
  series_id : json;
  episode_number : option Z;
  episode : option string;
  uploader_id : json;
  formats : list MediaFormat.t;
  subtitles : list (string * list Subtitle.t)
}.
End Episode.

Inductive article_result : Type :=
  | playlist_result (entries : list UrlResult)
  | info_dict (info : Article.t).

(* ================================================================== *)
(** ** The host framework, the network and the clock *)

Inductive request : Type :=
  | WebpageRequest (url video_id : string)
  | ManifestRequest (url video_id : string).

Record World : Type := MkWorld {
  clock : Z;                 (* [int(time.time())] *)
  requests : list request    (* what has been asked of the network, oldest first *)
}.

(** A match object of [re]: the text of each named group. *)
Definition match_object := string -> string.

Record Host : Type := MkHost {
  (* [InfoExtractor._match_id] for a class whose [_VALID_URL] is the first argument *)
  match_id : string -> string -> result string;
  (* [InfoExtractor._download_webpage(url, video_id)] *)
  download : string -> string -> result string;
  (* [re.search(pattern, text)] *)
  re_search : string -> string -> option match_object;
  (* [InfoExtractor._html_search_regex(pattern, text, name, None)] *)
  html_search_regex : string -> string -> string -> option string;
  (* [InfoExtractor._search_regex(pattern, text, name)] *)
  search_regex : string -> string -> string -> result string;
  (* [InfoExtractor._parse_json(text, video_id, transform_source)] *)
  parse_json : string -> string -> option (string -> string) -> result json;
  (* [utils.js_to_json] *)
  js_to_json : string -> string;
  (* [InfoExtractor._og_search_title], [_og_search_description], [_og_search_thumbnail] *)
  og_search_title : string -> result string;
  og_search_description : string -> option string;
  og_search_thumbnail : string -> option string;
  (* [InfoExtractor._html_search_meta(names, html)], not fatal *)
  html_search_meta : list string -> string -> option string;
  (* [InfoExtractor._sort_formats] *)
  sort_formats : list MediaFormat.t -> result (list MediaFormat.t);
  (* [InfoExtractor._extract_m3u8_formats(url, video_id, ext, entry_protocol, m3u8_id, fatal=False)] *)
  extract_m3u8_formats : string -> string -> string -> string -> string -> list MediaFormat.t;
  (* [utils.update_url_query(url, query)] *)
  update_url_query : string -> list (string * string) -> string;
  (* [utils.parse_iso8601(date_str, delimiter)] *)
  parse_iso8601 : json -> string -> result (option Z);
  (* [str(v)] for a float, a list or a dict *)
  str_of_container : json -> string
}.

(** A computation that reads the clock, asks the network and may raise. *)
Definition M (A : Type) : Type := World -> result A * World.

Definition ret {A} (a : A) : M A := fun w => (Ok a, w).
Definition raise {A} (e : exn) : M A := fun w => (Raise e, w).
Definition lift {A} (r : result A) : M A := fun w => (r, w).
Definition bind {A B} (m : M A) (k : A -> M B) : M B :=
  fun w =>
    match m w with
    | (Ok a, w') => k a w'
    | (Raise e, w') => (Raise e, w')
    end.

Declare Scope extract_scope.
Delimit Scope extract_scope with extract.
Notation "x <- c ;; k" := (bind c (fun x => k))
  (at level 100, c at next level, right associativity) : extract_scope.
Local Open Scope extract_scope.

Definition ask (r : request) : M unit :=
  fun w => (Ok tt, MkWorld (clock w) (requests w ++ [r])%list).

(** [int(time.time())]. *)
Definition time : M Z := fun w => (Ok (clock w), w).

Definition _download_webpage (h : Host) (url video_id : string) : M string :=
  _ <- ask (WebpageRequest url video_id) ;;
  lift (download h url video_id).

Definition _extract_m3u8_formats (h : Host) (url video_id ext entry_protocol m3u8_id : string)
  : M (list MediaFormat.t) :=
  _ <- ask (ManifestRequest url video_id) ;;
  ret (extract_m3u8_formats h url video_id ext entry_protocol m3u8_id).

(* ================================================================== *)
(** ** Helpers of [..utils] *)

Definition digit_of (c : ascii) : option Z :=
  let n := Z.of_N (N_of_ascii c) in
  if (48 <=? n) && (n <=? 57) then Some (n - 48) else None.

Fixpoint digits (s : string) (acc : Z) : option Z :=
  match s with
  | EmptyString => Some acc
  | String c rest =>
      match digit_of c with
      | Some d => digits rest (10 * acc + d)
      | None => None
      end
  end.

(** [int(s)] for a text: an optional sign and decimal digits. *)
Definition int_of_text (s : string) : option Z :=
  match s with
  | EmptyString => None
  | String c rest =>
      if (c =? "-")%char then
        match rest with
        | EmptyString => None
        | _ => option_map Z.opp (digits rest 0)
        end
      else if (c =? "+")%char then
        match rest with
        | EmptyString => None
        | _ => digits rest 0
        end
      else digits s 0
  end.

(** Modelled from the spec: [int_or_none] of [..utils], which is not among the
    sources at hand.  It is the "best-effort integer parse" of the
    description: a missing value ([None]), the empty text and anything that
    does not read as an integer give [None], and no value makes it raise. *)
Definition int_or_none (v : json) : option Z :=
  match v with
  | JNull => None
  | JBool b => Some (if b then 1 else 0)
  | JInt n => Some n
  | JFloat q => Some (Z.quot (Qnum q) (Z.pos (Qden q)))
  | JStr s => int_of_text s
  | JList _ => None
  | JObj _ => None
  end.

Definition of_option (o : option string) : json :=
  match o with
  | Some s => JStr s
  | None => JNull
  end.

(** [isinstance(v, compat_str)]. *)
Definition compat_str (v : json) : bool :=
  match v with
  | JStr _ => true
  | _ => false
  end.

(** Modelled from the spec: [try_get] of [..utils], which is not among the
    sources at hand.  It is the "look up ... if present" of the description:
    the getter is applied to the source, a lookup that fails
    ([AttributeError], [KeyError], [TypeError], [IndexError]) or a value that
    is not of the expected type gives [None]. *)
Definition try_get (src : json) (getter : json -> result json)
                   (expected_type : option (json -> bool)) : result json :=
  match getter src with
  | Ok v =>
      match expected_type with
      | None => Ok v
      | Some is_expected => if is_expected v then Ok v else Ok JNull
      end
  | Raise (AttributeError _) => Ok JNull
  | Raise (KeyError _) => Ok JNull
  | Raise TypeError => Ok JNull
  | Raise IndexError => Ok JNull
  | Raise e => Raise e
  end.

(** What [str.format] puts in the place of a replacement field. *)
Definition format_value (h : Host) (v : json) : string :=
  match v with
  | JStr s => s
  | JNull => "None"
  | JBool true => "True"
  | JBool false => "False"
  | JInt n => str_of_int n
  | _ => str_of_container h v
  end.

Definition dquote : string := String (ascii_of_N 34) EmptyString.

(* ================================================================== *)
(** ** [class ABCIE(InfoExtractor)] *)

Module ABCIE.

Definition IE_NAME : string := "abc.net.au".
Definition _VALID_URL : string :=
  "https?://(?:www\.)?abc\.net\.au/news/(?:[^/]+/){1,2}(?P<id>\d+)".

Definition inline_data_re : string :=
  "inline(?P<type>Video|Audio|YouTube)Data\.push\((?P<json_data>[^)]+)\);".

Definition expired_re : string :=
  "(?s)class=" ++ dquote ++ "expired-(?:video|audio)" ++ dquote
  ++ ".+?<span>(.+?)</span>".

(** One element of the [formats] list comprehension. *)
Definition format_of (type : string) (url_info : json) : result MediaFormat.t :=
  url <~ getitem url_info "url" ;;
  vcodec <~ (if (type =? "Video")%string then get url_info "codec" else Ok (JStr "none")) ;;
  width <~ get url_info "width" ;;
  height <~ get url_info "height" ;;
  bitrate <~ get url_info "bitrate" ;;
  filesize <~ get url_info "filesize" ;;
  Ok (MediaFormat.Make url vcodec (int_or_none width) (int_or_none height)
        (int_or_none bitrate) (int_or_none filesize)).

Definition _real_extract (h : Host) (url : string) : M article_result :=
  video_id <- lift (match_id h _VALID_URL url) ;;
  webpage <- _download_webpage h url video_id ;;
  match re_search h inline_data_re webpage with
  | None =>
      let expired := of_option (html_search_regex h expired_re webpage "expired") in
      if truthy expired then
        raise (ExtractorError (IE_NAME ++ " said: " ++ format_value h expired) true)
      else
        raise (ExtractorError "Unable to extract video urls" false)
  | Some mobj =>
      urls_info <- lift (parse_json h (mobj "json_data") video_id (Some (js_to_json h))) ;;
      let urls_info :=
        match urls_info with
        | JList l => l
        | _ => [urls_info]
        end in
      if (mobj "type" =? "YouTube")%string then
        entries <- lift (comprehension
                           (fun url_info => u <~ getitem url_info "url" ;; Ok (url_result u))
                           urls_info) ;;
        ret (playlist_result entries)
      else
        formats <- lift (comprehension (format_of (mobj "type")) urls_info) ;;
        formats <- lift (sort_formats h formats) ;;
        title <- lift (og_search_title h webpage) ;;
        ret (info_dict
               (Article.Make video_id title formats
                  (og_search_description h webpage)
                  (og_search_thumbnail h webpage)))
  end.

End ABCIE.

(* ================================================================== *)
(** ** [class ABCIViewIE(InfoExtractor)] *)

Module ABCIViewIE.

Definition IE_NAME : string := "abc.net.au:iview".
Definition _VALID_URL : string :=
  "https?://iview\.abc\.net\.au/programs/[^/]+/(?P<id>[^/?#]+)".
Definition _GEO_COUNTRIES : list string := ["AU"].

Definition video_params_re : string := "videoParams\s*=\s*({.+?});".

(** [next(s for s in playlist if s.get('type') == 'program')] on the elements
    the iteration gives. *)
Fixpoint next_program (playlist : list json) : result json :=
  match playlist with
  | [] => Raise StopIteration
  | s :: rest =>
      type <~ get s "type" ;;
      if eq_str type "program" then Ok s else next_program rest
  end.

(** ['/auth/hls/sign?ts={0}&hn={1}&d=android-mobile'.format(ts, house_number)] *)
Definition sign_path (h : Host) (ts : Z) (house_number : json) : string :=
  "/auth/hls/sign?ts=" ++ str_of_int ts ++ "&hn=" ++ format_value h house_number
  ++ "&d=android-mobile".

Definition secret : string := "android.content.res.Resources".

(** [hmac.new(secret.encode('utf-8'), path.encode('utf-8'), hashlib.sha256).hexdigest()] *)
Definition signature (path : string) : string :=
  HMAC.hexdigest (encode_utf8 secret) (encode_utf8 path).

(** ['http://iview.abc.net.au{0}&sig={1}'.format(path, sig)] *)
Definition token_url (path sig : string) : string :=
  "http://iview.abc.net.au" ++ path ++ "&sig=" ++ sig.

Definition tokenize_url (h : Host) (url : json) (token : string) : result string :=
  match url with
  | JStr u => Ok (update_url_query h u [("hdnea", token)])
  | _ => Raise TypeError
  end.

(** [lambda x: x['streams']['hls'][sd]] *)
Definition hls_getter (sd : string) (x : json) : result json :=
  streams <~ getitem x "streams" ;;
  hls <~ getitem streams "hls" ;;
  getitem hls sd.

(** The loop [for sd in ('sd', 'sd-low')].  The local variable [formats] is
    [None] as long as no assignment has bound it. *)
Fixpoint tiers_loop (h : Host) (stream : json) (token video_id : string)
                    (sds : list string) (formats : option (list MediaFormat.t))
  : M (option (list MediaFormat.t)) :=
  match sds with
  | [] => ret formats
  | sd :: rest =>
      sd_url <- lift (try_get stream (hls_getter sd) (Some compat_str)) ;;
      if negb (truthy sd_url) then
        tiers_loop h stream token video_id rest formats            (* continue *)
      else
        m3u8_url <- lift (tokenize_url h sd_url token) ;;
        formats <- _extract_m3u8_formats h m3u8_url video_id "mp4" "m3u8_native" "hls" ;;
        match formats with
        | _ :: _ => ret (Some formats)                             (* break *)
        | [] => tiers_loop h stream token video_id rest (Some formats)
        end
  end.

Definition subtitles_of (src_vtt : json) : list (string * list Subtitle.t) :=
  if truthy src_vtt then [("en", [Subtitle.Make src_vtt "vtt"])] else [].

Definition _real_extract (h : Host) (url : string) : M Episode.t :=
  video_id <- lift (match_id h _VALID_URL url) ;;
  webpage <- _download_webpage h url video_id ;;
  params_text <- lift (search_regex h video_params_re webpage "video params") ;;
  video_params <- lift (parse_json h params_text video_id None) ;;
  title <- lift (t <~ get video_params "title" ;;
                 py_or t (getitem video_params "seriesTitle")) ;;
  stream <- lift (playlist <~ getitem video_params "playlist" ;;
                  entries <~ iter playlist ;;
                  next_program entries) ;;

  house_number <- lift (get video_params "episodeHouseNumber") ;;
  now <- time ;;
  let path := sign_path h now house_number in
  let sig := signature path in
  token <- _download_webpage h (token_url path sig) video_id ;;

  formats <- tiers_loop h stream token video_id ["sd"; "sd-low"] None ;;
  formats <- match formats with
             | None => raise (UnboundLocalError "formats")
             | Some formats => lift (sort_formats h formats)
             end ;;

  captions <- lift (get_default stream "captions" (JObj [])) ;;
  src_vtt <- lift (get captions "src-vtt") ;;
  let subtitles := subtitles_of src_vtt in

  let description := html_search_meta h ["og:description"; "twitter:description"] webpage in
  let thumbnail := html_search_meta h ["og:image"; "twitter:image:src"] webpage in
  event_duration <- lift (get video_params "eventDuration") ;;
  pub_date <- lift (get video_params "pubDate") ;;
  timestamp <- lift (parse_iso8601 h pub_date " ") ;;
  series <- lift (get video_params "seriesTitle") ;;
  series_id <- lift (n <~ get video_params "seriesHouseNumber" ;;
                     py_or n (Ok (JStr (slice_to 7 video_id)))) ;;
  let episode_number := int_or_none (of_option (html_search_meta h ["episodeNumber"] webpage)) in
  let episode := html_search_meta h ["episode_title"] webpage in
  uploader_id <- lift (get video_params "channel") ;;
  ret (Episode.Make video_id title description thumbnail
         (int_or_none event_duration) timestamp series series_id
         episode_number episode uploader_id formats subtitles).

End ABCIViewIE.

(** The URL one quality tier of a playlist entry carries: the value of
    [stream['streams']['hls'][sd]] when every lookup succeeds and the value is
    a text that is not empty. *)
Definition tier_url (stream : json) (sd : string) : option string :=
  match ABCIViewIE.hls_getter sd stream with
  | Ok (JStr u) => if (u =? EmptyString)%string then None else Some u
  | _ => None
  end.

(** A list read as a list of elements, a single value as a list of one. *)
Definition as_list (v : json) : list json :=
  match v with
  | JList l => l
  | _ => [v]
  end.

(** The value [d.get(key)] has when [d] is a dict. *)
Definition field (d : json) (key : string) : json :=
  match d with
  | JObj items =>
      match lookup key items with
      | Some v => v
      | None => JNull
      end
  | _ => JNull
  end.

(** The format the description promises for one element of an article's
    data: the element's [url], its [codec] for a video and "none" otherwise,
    and the four numbers read with [int_or_none]. *)
Definition expected_format (type : string) (url_info : json) : MediaFormat.t :=
  {| MediaFormat.url := field url_info "url";
     MediaFormat.vcodec :=
       if (type =? "Video")%string then field url_info "codec" else JStr "none";
     MediaFormat.width := int_or_none (field url_info "width");
     MediaFormat.height := int_or_none (field url_info "height");
     MediaFormat.tbr := int_or_none (field url_info "bitrate");
     MediaFormat.filesize := int_or_none (field url_info "filesize") |}.

Definition nonempty_text (v : json) : Prop :=
  exists s, v = JStr s /\ s <> EmptyString.

Definition every_format_has_url (formats : list MediaFormat.t) : Prop :=
  Forall (fun f => nonempty_text (MediaFormat.url f)) formats.

(** The pages the claims speak of, in terms of what the host answers. *)
Definition article_page (h : Host) (url video_id webpage : string) : Prop :=
  match_id h ABCIE._VALID_URL url = Ok video_id /\
  download h url video_id = Ok webpage.

Definition inline_block (h : Host) (video_id webpage : string)
                        (mobj : match_object) (data : json) : Prop :=
  re_search h ABCIE.inline_data_re webpage = Some mobj /\
  parse_json h (mobj "json_data") video_id (Some (js_to_json h)) = Ok data.

Definition catchup_page (h : Host) (url video_id webpage : string) (video_params : json) : Prop :=
  exists params_text,
    match_id h ABCIViewIE._VALID_URL url = Ok video_id /\
    download h url video_id = Ok webpage /\
    search_regex h ABCIViewIE.video_params_re webpage "video params" = Ok params_text /\
    parse_json h params_text video_id None = Ok video_params.

(** The title and the "program" entry of a configuration, as
    [_real_extract] computes them before it signs. *)
Definition title_of (video_params : json) : result json :=
  t <~ get video_params "title" ;;
  py_or t (getitem video_params "seriesTitle").

Definition program_of (video_params : json) : result json :=
  playlist <~ getitem video_params "playlist" ;;
  entries <~ iter playlist ;;
  ABCIViewIE.next_program entries.

(** What [_sort_formats] is relied on for: it refuses an empty list and
    otherwise only reorders. *)
Definition sorts (h : Host) : Prop :=
  (exists e, sort_formats h [] = Raise e) /\
  (forall l l', sort_formats h l = Ok l' -> Permutation l l').

(** The world after further requests. *)
Definition asked (w : World) (rs : list request) : World :=
  MkWorld (clock w) (requests w ++ rs)%list.

(** A computation whose outcome does not depend on the clock or on what has
    been asked before. *)
Definition steady {A} (m : M A) : Prop :=
  forall w w', fst (m w) = fst (m w').

(** A computation that leaves the clock alone and only adds to what has been
    asked of the network. *)
Definition grows {A} (m : M A) : Prop :=
  forall w, exists rs, snd (m w) = asked w rs.

(* ================================================================== *)
(** ** Fixture pages

    A host that answers from canned data, in the way a unit test of an
    extractor stubs the framework: one page, what the searches find in it,
    what the JSON in it parses to, and what each manifest holds.  The text
    of a page is abridged; its data is given as parsed. *)

Module Fixture.

Definition refusing_sort (l : list MediaFormat.t) : result (list MediaFormat.t) :=
  match l with
  | [] => Raise (ExtractorError "No video formats found" false)
  | _ => Ok l
  end.

Definition sign_endpoint : string := "http://iview.abc.net.au/auth/hls/sign?".
Definition token : string := "st=1514499187~exp=1514499487~acl=/*~hmac=0f".

Definition group (type json_data : string) : match_object :=
  fun name =>
    if (name =? "type")%string then type
    else if (name =? "json_data")%string then json_data
    else EmptyString.

Definition host (video_id webpage : string) (mobj : option match_object)
                (expired : option string) (data : json)
                (manifest : string -> list MediaFormat.t) : Host :=
  {| match_id := fun _ _ => Ok video_id;
     download := fun url _ =>
       if String.prefix sign_endpoint url then Ok token else Ok webpage;
     re_search := fun _ _ => mobj;
     html_search_regex := fun _ _ _ => expired;
     search_regex := fun _ _ name =>
       match data with
       | JObj _ => Ok "{...}"
       | _ => Raise (RegexNotFoundError name)
       end;
     parse_json := fun _ _ _ => Ok data;
     js_to_json := fun s => s;
     og_search_title := fun _ => Ok "ABC News";
     og_search_description := fun _ => None;
     og_search_thumbnail := fun _ => None;
     html_search_meta := fun _ _ => None;
     sort_formats := refusing_sort;
     extract_m3u8_formats := fun url _ _ _ _ => manifest url;
     update_url_query := fun url query =>
       match query with
       | (k, v) :: _ => url ++ "?" ++ k ++ "=" ++ v
       | [] => url
       end;
     parse_iso8601 := fun _ _ => Ok None;
     str_of_container := fun _ => "?" |}.

Definition w0 : World := MkWorld 1514499187 [].

(** A later moment, after another page has been fetched. *)
Definition w1 : World :=
  MkWorld 1514585587 [ WebpageRequest "http://www.abc.net.au/news/2015-10-19/6866214" "6866214" ].

(** Article pages. *)
Definition article_url : string :=
  "http://www.abc.net.au/news/2015-10-23/nab-lifts-interest-rates-following-westpac-and-cba/6880080".

Definition no_manifest : string -> list MediaFormat.t := fun _ => [].

Definition expired_page : string :=
  "<div class=" ++ dquote ++ "expired-video" ++ dquote
  ++ "><span>This video has expired.</span></div>".

Definition expired_article : Host :=
  host "5868334" expired_page None (Some "This video has expired.") JNull no_manifest.

Definition unrecognised_page : string := "<html><body>Page not found</body></html>".

Definition unrecognised_article : Host :=
  host "6866214" unrecognised_page None None JNull no_manifest.

Definition audio_data : json :=
  JList [ JObj [ ("url", JStr "http://mpegmedia.abc.net.au/news/audio/am/201510/20151023-am5-nab.mp3");
                 ("contentType", JStr "audio/mp3");
                 ("codec", JStr "MP3");
                 ("bitrate", JStr "32");
                 ("filesize", JStr "846676") ];
          JObj [ ("url", JStr "http://mpegmedia.abc.net.au/news/audio/am/201510/20151023-am5-nab.ogg");
                 ("bitrate", JInt 64);
                 ("width", JStr "n/a");
                 ("filesize", JNull) ] ].

Definition audio_page : string := "<script>inlineAudioData.push([...]);</script>".

Definition audio_article : Host :=
  host "6880080" audio_page (Some (group "Audio" "[...]")) None audio_data no_manifest.

Definition video_data : json :=
  JObj [ ("url", JStr "http://mpegmedia.abc.net.au/news/video/201411/ebola_1000k.mp4");
         ("codec", JStr "AVC");
         ("width", JStr "1024");
         ("height", JInt 576);
         ("bitrate", JStr "1000") ].

Definition video_page : string := "<script>inlineVideoData.push({...});</script>".

Definition video_article : Host :=
  host "5868334" video_page (Some (group "Video" "{...}")) None video_data no_manifest.

(** An article whose only rendition has an empty [url]. *)
Definition empty_url_article : Host :=
  host "6880080" "<script>inlineVideoData.push({url: '', codec: 'AVC'});</script>"
       (Some (group "Video" "{url: '', codec: 'AVC'}")) None
       (JObj [ ("url", JStr EmptyString); ("codec", JStr "AVC") ]) no_manifest.

Definition youtube_data : json :=
  JList [ JObj [ ("url", JStr "http://www.youtube.com/watch?v=NvqvPeNZsHU") ];
          JObj [ ("url", JStr "http://www.youtube.com/watch?v=dQw4w9WgXcQ") ] ].

Definition youtube_page : string := "<script>inlineYouTubeData.push([...]);</script>".

Definition youtube_article : Host :=
  host "6702326" youtube_page (Some (group "YouTube" "[...]")) None youtube_data no_manifest.

(** Catch-up pages. *)
Definition episode_url : string :=
  "http://iview.abc.net.au/programs/call-the-midwife/ZW0898A003S00".

Definition video_info : Article.t :=
  Article.Make "5868334" "ABC News"
    [ MediaFormat.Make
        (JStr "http://mpegmedia.abc.net.au/news/video/201411/ebola_1000k.mp4")
        (JStr "AVC") (Some 1024) (Some 576) (Some 1000) None ]
    None None.

Definition hls_format (url : string) : MediaFormat.t :=
  MediaFormat.Make (JStr url) (JStr "avc1.77.30") (Some 1024) (Some 576) (Some 1500) None.

Definition manifest (url : string) : list MediaFormat.t :=
  if String.prefix "http://iviewhls-i.akamaihd.net/sd.m3u8" url then [hls_format url] else [].

Definition program_entry (hls : list (string * json)) : json :=
  JObj [ ("type", JStr "program");
         ("streams", JObj [ ("hls", JObj hls) ]);
         ("captions", JObj [ ("src-vtt", JStr "http://iview.abc.net.au/cc/ZW0898A003S00.vtt") ]) ].

Definition episode_params (house_number : list (string * json)) (playlist : list json) : json :=
  JObj ([ ("title", JStr "Series 5 Ep 3");
          ("seriesTitle", JStr "Call The Midwife") ]
        ++ house_number
        ++ [ ("channel", JStr "abc1");
             ("playlist", JList playlist) ])%list.

Definition preroll : json := JObj [ ("type", JStr "preroll") ].

Definition episode_page : string := "<script>var videoParams = {...};</script>".

Definition episode (house_number : list (string * json)) (playlist : list json) : Host :=
  host "ZW0898A003S00" episode_page None None (episode_params house_number playlist) manifest.

Definition both_tiers : list (string * json) :=
  [ ("sd", JStr "http://iviewhls-i.akamaihd.net/sd.m3u8");
    ("sd-low", JStr "http://iviewhls-i.akamaihd.net/sd-low.m3u8") ].

(** The usual page: a house number, an advertisement and the programme. *)
Definition full_episode : Host :=
  episode [ ("episodeHouseNumber", JStr "ZW0898A003S00") ]
          [ preroll; program_entry both_tiers ].

Definition full_episode_info : Episode.t :=
  Episode.Make "ZW0898A003S00" (JStr "Series 5 Ep 3") None None None None
    (JStr "Call The Midwife") (JStr "ZW0898A") None None (JStr "abc1")
    [ hls_format ("http://iviewhls-i.akamaihd.net/sd.m3u8?hdnea=" ++ token) ]
    [ ("en", [ Subtitle.Make (JStr "http://iview.abc.net.au/cc/ZW0898A003S00.vtt") "vtt" ]) ].

(** The same page without [episodeHouseNumber]. *)
Definition unnumbered_episode : Host :=
  episode [] [ preroll; program_entry both_tiers ].

(** A programme entry that carries neither tier. *)
Definition tierless_episode : Host :=
  episode [ ("episodeHouseNumber", JStr "ZW0898A003S00") ]
          [ program_entry [ ("hd", JStr "http://iviewhls-i.akamaihd.net/hd.m3u8") ] ].

(** A playlist without any "program" entry. *)
Definition programless_episode : Host :=
  episode [ ("episodeHouseNumber", JStr "ZW0898A003S00") ] [ preroll ].

End Fixture.

(* ================================================================== *)
(** ** More of the model: silent computations, [re], further pages *)

(** A computation that asks nothing of the network. *)
Definition quiet {A} (m : M A) : Prop :=
  forall w, snd (m w) = w.

(** A host with one service replaced. *)
Definition with_download (h : Host) (d : string -> string -> result string) : Host :=
  MkHost (match_id h) d (re_search h) (html_search_regex h) (search_regex h)
         (parse_json h) (js_to_json h) (og_search_title h) (og_search_description h)
         (og_search_thumbnail h) (html_search_meta h) (sort_formats h)
         (extract_m3u8_formats h) (update_url_query h) (parse_iso8601 h)
         (str_of_container h).

Definition with_html_search_regex (h : Host)
           (f : string -> string -> string -> option string) : Host :=
  MkHost (match_id h) (download h) (re_search h) f (search_regex h)
         (parse_json h) (js_to_json h) (og_search_title h) (og_search_description h)
         (og_search_thumbnail h) (html_search_meta h) (sort_formats h)
         (extract_m3u8_formats h) (update_url_query h) (parse_iso8601 h)
         (str_of_container h).

Definition with_re_search (h : Host)
           (f : string -> string -> option match_object) : Host :=
  MkHost (match_id h) (download h) f (html_search_regex h) (search_regex h)
         (parse_json h) (js_to_json h) (og_search_title h) (og_search_description h)
         (og_search_thumbnail h) (html_search_meta h) (sort_formats h)
         (extract_m3u8_formats h) (update_url_query h) (parse_iso8601 h)
         (str_of_container h).

(** The regular expressions of the module that use neither [\d] nor [\s] nor
    [.], in the backtracking reading of [re]: alternatives and repetitions
    are tried in order, greedy ones longest first, and what follows a
    sub-expression is its continuation.  On the UTF-8 representation a
    negated set of ASCII characters takes a whole character byte by byte. *)
Module Re.

Inductive regex : Type :=
  | Lit (l : string)                     (* literal characters *)
  | ClassPlus (p : ascii -> bool)        (* [set]+ *)
  | Cat (r1 r2 : regex)                  (* r1 r2 *)
  | Alt (r1 r2 : regex)                  (* r1|r2 *)
  | Opt (r : regex)                      (* r? *)
  | Group (name : string) (r : regex).   (* (?P<name>r) *)

(** The groups of a match, the one closed last first. *)
Definition captures := list (string * string).

(** The rest of [s] after the prefix [l]. *)
Fixpoint strip (l s : string) : option string :=
  match l, s with
  | EmptyString, _ => Some s
  | String a l', String b s' => if (a =? b)%char then strip l' s' else None
  | String _ _, EmptyString => None
  end.

(** What a sub-expression took of [s] when it left [rest]. *)
Definition consumed (s rest : string) : string :=
  substring 0 (String.length s - String.length rest) s.

Fixpoint class_plus (p : ascii -> bool) (k : string -> option captures) (s : string)
  : option captures :=
  match s with
  | EmptyString => None
  | String c rest =>
      if p c then
        match class_plus p k rest with
        | Some m => Some m
        | None => k rest
        end
      else None
  end.

Fixpoint run (r : regex) (s : string) (caps : captures)
             (k : string -> captures -> option captures) : option captures :=
  match r with
  | Lit l =>
      match strip l s with
      | Some rest => k rest caps
      | None => None
      end
  | ClassPlus p => class_plus p (fun rest => k rest caps) s
  | Cat r1 r2 => run r1 s caps (fun rest caps' => run r2 rest caps' k)
  | Alt r1 r2 =>
      match run r1 s caps k with
      | Some m => Some m
      | None => run r2 s caps k
      end
  | Opt r' =>
      match run r' s caps k with
      | Some m => Some m
      | None => k s caps
      end
  | Group name r' =>
      run r' s caps (fun rest caps' => k rest ((name, consumed s rest) :: caps'))
  end.

(** [re.match(r, s)]: a match that starts at the first character. *)
Definition match_at (r : regex) (s : string) : option captures :=
  run r s [] (fun _ caps => Some caps).

(** [re.search(r, s)]: the match that starts leftmost. *)
Fixpoint search (r : regex) (s : string) : option captures :=
  match match_at r s with
  | Some m => Some m
  | None =>
      match s with
      | EmptyString => None
      | String _ rest => search r rest
      end
  end.

(** [m.group(name)]. *)
Fixpoint group (m : captures) (name : string) : string :=
  match m with
  | [] => EmptyString
  | (n, text) :: rest => if (n =? name)%string then text else group rest name
  end.

Definition none_of (set : string) (c : ascii) : bool :=
  negb (existsb (Ascii.eqb c) (list_ascii_of_string set)).

End Re.

Module Patterns.

(** [inline(?P<type>Video|Audio|YouTube)Data\.push\((?P<json_data>[^)]+)\);] *)
Definition inline_data : Re.regex :=
  Re.Cat (Re.Lit "inline")
    (Re.Cat (Re.Group "type"
               (Re.Alt (Re.Lit "Video") (Re.Alt (Re.Lit "Audio") (Re.Lit "YouTube"))))
       (Re.Cat (Re.Lit "Data.push(")
          (Re.Cat (Re.Group "json_data" (Re.ClassPlus (Re.none_of ")")))
             (Re.Lit ");")))).

(** [https?://iview\.abc\.net\.au/programs/[^/]+/(?P<id>[^/?#]+)] *)
Definition iview_url : Re.regex :=
  Re.Cat (Re.Lit "http")
    (Re.Cat (Re.Opt (Re.Lit "s"))
       (Re.Cat (Re.Lit "://iview.abc.net.au/programs/")
          (Re.Cat (Re.ClassPlus (Re.none_of "/"))
             (Re.Cat (Re.Lit "/")
                (Re.Group "id" (Re.ClassPlus (Re.none_of "/?#"))))))).

End Patterns.

(** The URL of a tier read off the playlist entry itself, without the
    getter of the extractor: [streams], then [hls], then the tier, each a
    key of a dict, and the value a text that is not empty. *)
Definition hls_url (stream : json) (sd : string) : option string :=
  match field (field (field stream "streams") "hls") sd with
  | JStr u => if (u =? EmptyString)%string then None else Some u
  | _ => None
  end.

(** What the description says of the tiers: "sd" first, then "sd-low"; a
    tier is asked for when it has a URL, and the first one whose manifest
    holds a format ends the search.  The manifests asked for, in order, and
    the formats kept; nothing when neither tier has a URL. *)
Definition tier_plan (h : Host) (stream : json) (token video_id : string)
  : option (list request * list MediaFormat.t) :=
  let m3u8_url u := update_url_query h u [("hdnea", token)] in
  let parse u := extract_m3u8_formats h (m3u8_url u) video_id "mp4" "m3u8_native" "hls" in
  let req u := ManifestRequest (m3u8_url u) video_id in
  match hls_url stream "sd", hls_url stream "sd-low" with
  | Some sd, Some sd_low =>
      match parse sd with
      | _ :: _ => Some ([req sd], parse sd)
      | [] => Some ([req sd; req sd_low], parse sd_low)
      end
  | Some sd, None => Some ([req sd], parse sd)
  | None, Some sd_low => Some ([req sd_low], parse sd_low)
  | None, None => None
  end.

(** The record put together once the formats are sorted: the subtitles and
    the dictionary that [ABCIViewIE._real_extract] returns, on a
    configuration that is a dict. *)
Definition assemble (h : Host) (video_id webpage : string)
           (video_params title stream : json) (formats : list MediaFormat.t)
  : result Episode.t :=
  captions <~ get_default stream "captions" (JObj []) ;;
  src_vtt <~ get captions "src-vtt" ;;
  timestamp <~ parse_iso8601 h (field video_params "pubDate") " " ;;
  series_id <~ py_or (field video_params "seriesHouseNumber")
                     (Ok (JStr (slice_to 7 video_id))) ;;
  Ok (Episode.Make video_id title
        (html_search_meta h ["og:description"; "twitter:description"] webpage)
        (html_search_meta h ["og:image"; "twitter:image:src"] webpage)
        (int_or_none (field video_params "eventDuration")) timestamp
        (field video_params "seriesTitle") series_id
        (int_or_none (of_option (html_search_meta h ["episodeNumber"] webpage)))
        (html_search_meta h ["episode_title"] webpage)
        (field video_params "channel") formats
        (ABCIViewIE.subtitles_of src_vtt)).

(** A host whose [re.search] for the inline data pattern is the one above. *)
Definition searches_inline_data (h : Host) : Prop :=
  forall text,
    re_search h ABCIE.inline_data_re text
    = option_map Re.group (Re.search Patterns.inline_data text).

(** Further pages. *)
Module Scenario.

(** The token endpoint turns the request down. *)
Definition refused : exn := HostError "HTTP Error 403: Forbidden".

Definition geo_blocked_episode : Host :=
  with_download Fixture.full_episode
    (fun url _ =>
       if String.prefix Fixture.sign_endpoint url then Raise refused
       else Ok Fixture.episode_page).

(** A programme entry whose [captions] is [null]. *)
Definition uncaptioned_entry : json :=
  JObj [ ("type", JStr "program");
         ("streams", JObj [ ("hls", JObj Fixture.both_tiers) ]);
         ("captions", JNull) ].

Definition null_captions_episode : Host :=
  Fixture.episode [ ("episodeHouseNumber", JStr "ZW0898A003S00") ] [ uncaptioned_entry ].

(** A playlist with entries after the programme that are not dicts. *)
Definition ragged_playlist : list json :=
  [ Fixture.preroll; Fixture.program_entry Fixture.both_tiers; JNull; JStr "program" ].

(** An article whose second rendition has no [url]. *)
Definition gapped_data : json :=
  JList [ JObj [ ("url", JStr "http://mpegmedia.abc.net.au/news/video/201411/ebola_1000k.mp4") ];
          JObj [ ("codec", JStr "AVC"); ("width", JStr "512") ];
          JStr "http://mpegmedia.abc.net.au/news/video/201411/ebola_256k.mp4" ].

Definition gapped_article : Host :=
  Fixture.host "5868334" Fixture.video_page (Some (Fixture.group "Video" "[...]")) None
               gapped_data Fixture.no_manifest.

Definition inline_page : string :=
  "<script>inlineVideoData.push({url: 'http://mpegmedia.abc.net.au/a.mp4'});</script>".

(** An article whose page is searched for the data block. *)
Definition searched_article : Host :=
  with_re_search
    (Fixture.host "5868334" inline_page None None
       (JObj [ ("url", JStr "http://mpegmedia.abc.net.au/a.mp4") ]) Fixture.no_manifest)
    (fun _ text => option_map Re.group (Re.search Patterns.inline_data text)).

Definition searched_info : Article.t :=
  Article.Make "5868334" "ABC News"
    [ MediaFormat.Make (JStr "http://mpegmedia.abc.net.au/a.mp4") JNull None None None None ]
    None None.


(** An article with the "expired" notice around a blank: the search for the
    notice finds it, and what is left of its text once cleaned is empty. *)
Definition blank_banner_page : string :=
  "<div class=" ++ dquote ++ "expired-video" ++ dquote ++ "><span> </span></div>".

Definition blank_banner_article : Host :=
  Fixture.host "5868334" blank_banner_page None (Some EmptyString) JNull Fixture.no_manifest.

(** Manifests of which only the low tier holds a format. *)
Definition low_manifest (url : string) : list MediaFormat.t :=
  if String.prefix "http://iviewhls-i.akamaihd.net/sd-low.m3u8" url
  then [Fixture.hls_format url] else [].

(** Both tiers have a URL, the manifest of "sd" is empty. *)
Definition fallback_episode : Host :=
  Fixture.host "ZW0898A003S00" Fixture.episode_page None None
    (Fixture.episode_params [ ("episodeHouseNumber", JStr "ZW0898A003S00") ]
       [ Fixture.preroll; Fixture.program_entry Fixture.both_tiers ])
    low_manifest.

(** Only the low tier, and [captions] is [null]. *)
Definition low_uncaptioned_entry : json :=
  JObj [ ("type", JStr "program");
         ("streams",
          JObj [ ("hls",
                  JObj [ ("sd-low", JStr "http://iviewhls-i.akamaihd.net/sd-low.m3u8") ]) ]);
         ("captions", JNull) ].

Definition low_null_captions_episode : Host :=
  Fixture.host "ZW0898A003S00" Fixture.episode_page None None
    (Fixture.episode_params [ ("episodeHouseNumber", JStr "ZW0898A003S00") ]
       [ low_uncaptioned_entry ])
    low_manifest.

End Scenario.

(* ================================================================== *)
(** * Properties *)

(** ** Test vectors of the hash (FIPS 180-4, RFC 4231) *)

Example round_constants :
  nth 0 SHA256.K 0 = 0x428a2f98 /\ nth 63 SHA256.K 0 = 0xc67178f2
  /\ nth 0 SHA256.H0 0 = 0x6a09e667 /\ nth 7 SHA256.H0 0 = 0x5be0cd19.
Proof. vm_compute. auto. Qed.

Example sha256_abc :
  hexlify (SHA256.digest (bytes_of_string "abc"))
  = "ba7816bf8f01cfea414140de5dae2223b00361a396177a9cb410ff61f20015ad".
Proof. vm_compute. reflexivity. Qed.

Example sha256_two_blocks :
  hexlify (SHA256.digest
             (bytes_of_string "abcdbcdecdefdefgefghfghighijhijkijkljklmklmnlmnomnopnopq"))
  = "248d6a61d20638b8e5c026930c3e6039a33ce45964ff2167f6ecedd419db06c1".
Proof. vm_compute. reflexivity. Qed.

Example hmac_rfc4231_case2 :
  HMAC.hexdigest (bytes_of_string "Jefe") (bytes_of_string "what do ya want for nothing?")
  = "5bdcc146bf60754e6a042426089575c75a003f089d2739839dec58b964ec3843".
Proof. vm_compute. reflexivity. Qed.

Example hmac_rfc4231_case6 :
  HMAC.hexdigest (repeat 0xaa 131)
    (bytes_of_string "Test Using Larger Than Block-Size Key - Hash Key First")
  = "60e431591ee0b67f0d8a26aacbf5b77f8e0bc6213728c5140546040f0ee37f54".
Proof. vm_compute. reflexivity. Qed.

(** ** The shape of a digest *)

Lemma compress_length (h block : list Z) :
  List.length h = 8%nat -> List.length (SHA256.compress h block) = 8%nat.
Proof.
  intros Hh. unfold SHA256.compress.
  rewrite length_map, length_combine, Hh. reflexivity.
Qed.

Lemma fold_compress_length (blocks : list (list Z)) :
  forall h, List.length h = 8%nat ->
            List.length (fold_left SHA256.compress blocks h) = 8%nat.
Proof.
  induction blocks as [|b blocks IH]; intros h Hh; simpl.
  - exact Hh.
  - apply IH, compress_length, Hh.
Qed.

Lemma byte_land (x : Z) : 0 <= Z.land x 255 < 256.
Proof.
  change 255 with (Z.ones 8). rewrite Z.land_ones by lia.
  apply Z.mod_pos_bound. lia.
Qed.

Lemma be_bytes_shape (n : nat) (x : Z) :
  List.length (SHA256.be_bytes n x) = n
  /\ Forall (fun b => 0 <= b < 256) (SHA256.be_bytes n x).
Proof.
  induction n as [|n [IHl IHb]]; cbn [SHA256.be_bytes List.length].
  - split; [reflexivity|constructor].
  - split; [rewrite IHl; reflexivity|].
    constructor; [apply byte_land|exact IHb].
Qed.

Lemma flat_be_bytes (h : list Z) :
  List.length (flat_map (SHA256.be_bytes 4) h) = (4 * List.length h)%nat
  /\ Forall (fun b => 0 <= b < 256) (flat_map (SHA256.be_bytes 4) h).
Proof.
  induction h as [|x h [IHl IHb]]; cbn [flat_map List.length].
  - split; [reflexivity|constructor].
  - destruct (be_bytes_shape 4 x) as [Hl Hb]. split.
    + rewrite length_app, Hl, IHl. lia.
    + apply Forall_app. split; assumption.
Qed.

Lemma digest_shape (msg : bytes) :
  List.length (SHA256.digest msg) = 32%nat
  /\ Forall (fun b => 0 <= b < 256) (SHA256.digest msg).
Proof.
  unfold SHA256.digest.
  destruct (flat_be_bytes
              (fold_left SHA256.compress
                 (SHA256.chunks16 (List.length (SHA256.words_of_bytes (SHA256.pad msg)))
                    (SHA256.words_of_bytes (SHA256.pad msg))) SHA256.H0)) as [Hl Hb].
  split; [|exact Hb].
  rewrite Hl, fold_compress_length; reflexivity.
Qed.

Lemma hex_digit_lower (d : Z) : 0 <= d < 16 -> lower_hex (hex_digit d) = true.
Proof.
  intros Hd.
  assert (H : d = 0 \/ d = 1 \/ d = 2 \/ d = 3 \/ d = 4 \/ d = 5 \/ d = 6 \/ d = 7 \/
              d = 8 \/ d = 9 \/ d = 10 \/ d = 11 \/ d = 12 \/ d = 13 \/ d = 14 \/ d = 15)
    by lia.
  repeat (destruct H as [H|H]; [subst d; reflexivity|]).
  subst d; reflexivity.
Qed.

Lemma hexlify_shape (bs : bytes) :
  Forall (fun b => 0 <= b < 256) bs ->
  String.length (hexlify bs) = (2 * List.length bs)%nat
  /\ all_chars lower_hex (hexlify bs) = true.
Proof.
  induction 1 as [|b bs Hb _ [IHl IHc]]; simpl; [split; reflexivity|].
  split; [rewrite IHl; lia|].
  rewrite IHc, !hex_digit_lower; [reflexivity| |].
  - change 15 with (Z.ones 4). rewrite Z.land_ones by lia.
    apply Z.mod_pos_bound. lia.
  - rewrite Z.shiftr_div_pow2 by lia. change (2 ^ 4) with 16.
    split; [apply Z.div_pos; lia|apply Z.div_lt_upper_bound; lia].
Qed.

Lemma hmac_hex_shape (key msg : bytes) :
  String.length (hexlify (HMAC.digest key msg)) = 64%nat
  /\ all_chars lower_hex (hexlify (HMAC.digest key msg)) = true.
Proof.
  unfold HMAC.digest.
  match goal with
  | |- context [hexlify (SHA256.digest ?m)] =>
      destruct (digest_shape m) as [Hl Hb];
      destruct (hexlify_shape _ Hb) as [Hl' Hc]
  end.
  split; [rewrite Hl', Hl; reflexivity|exact Hc].
Qed.

(** ** Running a computation step by step *)

Lemma asked_asked (w : World) (rs rs' : list request) :
  asked (asked w rs) rs' = asked w (rs ++ rs')%list.
Proof. unfold asked; simpl. now rewrite app_assoc. Qed.

Lemma asked_nil (w : World) : asked w [] = w.
Proof. destruct w; unfold asked; simpl. now rewrite app_nil_r. Qed.

Lemma bind_lift {A B} (r : result A) (k : A -> M B) (w : World) :
  bind (lift r) k w = match r with
                      | Ok a => k a w
                      | Raise e => (Raise e, w)
                      end.
Proof. unfold bind, lift. now destruct r. Qed.

Lemma bind_lift_ok {A B} (r : result A) (a : A) (k : A -> M B) (w : World) :
  r = Ok a -> bind (lift r) k w = k a w.
Proof. intros ->. reflexivity. Qed.

Lemma bind_time {B} (k : Z -> M B) (w : World) :
  bind time k w = k (clock w) w.
Proof. reflexivity. Qed.

Lemma bind_download {B} (h : Host) (url video_id : string) (k : string -> M B) (w : World) :
  bind (_download_webpage h url video_id) k w
  = match download h url video_id with
    | Ok page => k page (asked w [WebpageRequest url video_id])
    | Raise e => (Raise e, asked w [WebpageRequest url video_id])
    end.
Proof.
  unfold _download_webpage, bind, ask, lift, asked.
  now destruct (download h url video_id).
Qed.

Lemma bind_manifest {B} (h : Host) (url video_id ext proto mid : string)
      (k : list MediaFormat.t -> M B) (w : World) :
  bind (_extract_m3u8_formats h url video_id ext proto mid) k w
  = k (extract_m3u8_formats h url video_id ext proto mid)
      (asked w [ManifestRequest url video_id]).
Proof. reflexivity. Qed.

(** ** Lookups *)

Lemma getitem_raises (d : json) (key : string) (e : exn) :
  getitem d key = Raise e -> e = KeyError key \/ e = TypeError.
Proof.
  destruct d; simpl; try (intros [= <-]; now right).
  destruct (lookup key items); [discriminate|]. intros [= <-]; now left.
Qed.

Lemma hls_getter_raises (sd : string) (x : json) (e : exn) :
  ABCIViewIE.hls_getter sd x = Raise e -> (exists k, e = KeyError k) \/ e = TypeError.
Proof.
  unfold ABCIViewIE.hls_getter, rbind.
  destruct (getitem x "streams") as [streams|e1] eqn:H1.
  - destruct (getitem streams "hls") as [hls|e2] eqn:H2.
    + intros H3. destruct (getitem_raises _ _ _ H3); eauto.
    + intros [= <-]. destruct (getitem_raises _ _ _ H2); eauto.
  - intros [= <-]. destruct (getitem_raises _ _ _ H1); eauto.
Qed.

Lemma tier_url_nonempty (stream : json) (sd u : string) :
  tier_url stream sd = Some u -> (u =? EmptyString)%string = false.
Proof.
  unfold tier_url.
  destruct (ABCIViewIE.hls_getter sd stream) as [[| | | |s| |]|]; try discriminate.
  destruct (s =? EmptyString)%string eqn:Hs; [discriminate|].
  now intros [= <-].
Qed.

(** [try_get] with [compat_str], followed by the test [if not sd_url], lets
    through exactly the tiers that have a URL. *)
Lemma try_get_tier (stream : json) (sd : string) :
  exists v, try_get stream (ABCIViewIE.hls_getter sd) (Some compat_str) = Ok v
            /\ match tier_url stream sd with
               | Some u => v = JStr u
               | None => truthy v = false
               end.
Proof.
  unfold try_get, tier_url.
  destruct (ABCIViewIE.hls_getter sd stream) as [v|e] eqn:Hg.
  - destruct v as [| | | |s| |]; simpl; eauto.
    destruct (s =? EmptyString)%string eqn:Hs; eexists; split; eauto.
    simpl. now rewrite Hs.
  - destruct (hls_getter_raises _ _ _ Hg) as [[k ->]| ->]; eauto.
Qed.

(** One turn of the loop over the tiers. *)
Lemma tiers_loop_step (h : Host) (stream : json) (token video_id sd : string)
      (rest : list string) (formats : option (list MediaFormat.t)) (w : World) :
  ABCIViewIE.tiers_loop h stream token video_id (sd :: rest) formats w
  = match tier_url stream sd with
    | None => ABCIViewIE.tiers_loop h stream token video_id rest formats w
    | Some u =>
        let m3u8_url := update_url_query h u [("hdnea", token)] in
        let w' := asked w [ManifestRequest m3u8_url video_id] in
        match extract_m3u8_formats h m3u8_url video_id "mp4" "m3u8_native" "hls" with
        | [] => ABCIViewIE.tiers_loop h stream token video_id rest (Some []) w'
        | f :: fs => (Ok (Some (f :: fs)), w')
        end
    end.
Proof.
  destruct (try_get_tier stream sd) as (v & Hv & Ht).
  cbn [ABCIViewIE.tiers_loop]. rewrite (bind_lift_ok _ _ _ _ Hv).
  destruct (tier_url stream sd) as [u|] eqn:Hu.
  - subst v. apply tier_url_nonempty in Hu.
    cbn [truthy negb]. rewrite Hu. cbn [negb ABCIViewIE.tokenize_url].
    rewrite bind_lift, bind_manifest.
    now destruct (extract_m3u8_formats h _ video_id "mp4" "m3u8_native" "hls").
  - now rewrite Ht.
Qed.

(** What the loop over the two tiers leaves in [formats] and what it asks of
    the network, for every playlist entry. *)
Lemma tiers_loop_table (h : Host) (stream : json) (token video_id : string) (w : World) :
  let m3u8_url u := update_url_query h u [("hdnea", token)] in
  let parse u := extract_m3u8_formats h (m3u8_url u) video_id "mp4" "m3u8_native" "hls" in
  let req u := ManifestRequest (m3u8_url u) video_id in
  ABCIViewIE.tiers_loop h stream token video_id ["sd"; "sd-low"] None w
  = match tier_url stream "sd", tier_url stream "sd-low" with
    | Some sd, Some sd_low =>
        match parse sd with
        | _ :: _ => (Ok (Some (parse sd)), asked w [req sd])
        | [] => (Ok (Some (parse sd_low)), asked w [req sd; req sd_low])
        end
    | Some sd, None => (Ok (Some (parse sd)), asked w [req sd])
    | None, Some sd_low => (Ok (Some (parse sd_low)), asked w [req sd_low])
    | None, None => (Ok None, w)
    end.
Proof.
  intros m3u8_url parse req.
  rewrite tiers_loop_step.
  destruct (tier_url stream "sd") as [sd|]; cbv zeta.
  - fold (m3u8_url sd) (parse sd) (req sd).
    destruct (parse sd) as [|f fs] eqn:Hsd.
    + rewrite tiers_loop_step.
      destruct (tier_url stream "sd-low") as [sd_low|]; cbv zeta.
      * fold (m3u8_url sd_low) (parse sd_low) (req sd_low).
        rewrite asked_asked.
        now destruct (parse sd_low).
      * reflexivity.
    + now destruct (tier_url stream "sd-low").
  - rewrite tiers_loop_step.
    destruct (tier_url stream "sd-low") as [sd_low|]; cbv zeta.
    + fold (m3u8_url sd_low) (parse sd_low) (req sd_low).
      now destruct (parse sd_low).
    + reflexivity.
Qed.

(** ** What a computation leaves in the world

    No step resets the clock or forgets a request: a computation only adds
    to what has been asked. *)

Lemma grows_ret {A} (a : A) : grows (ret a).
Proof. intros w. exists []. simpl. now rewrite asked_nil. Qed.

Lemma grows_raise {A} (e : exn) : grows (@raise A e).
Proof. intros w. exists []. simpl. now rewrite asked_nil. Qed.

Lemma grows_lift {A} (r : result A) : grows (lift r).
Proof. intros w. exists []. simpl. now rewrite asked_nil. Qed.

Lemma grows_time : grows time.
Proof. intros w. exists []. simpl. now rewrite asked_nil. Qed.

Lemma grows_bind {A B} (m : M A) (k : A -> M B) :
  grows m -> (forall a, grows (k a)) -> grows (bind m k).
Proof.
  intros Hm Hk w. unfold bind.
  destruct (Hm w) as [rs Hrs].
  destruct (m w) as [[a|e] w1]; simpl in Hrs; subst w1.
  - destruct (Hk a (asked w rs)) as [rs' Hrs'].
    exists (rs ++ rs')%list. now rewrite Hrs', asked_asked.
  - now exists rs.
Qed.

Lemma grows_download (h : Host) (url video_id : string) :
  grows (_download_webpage h url video_id).
Proof.
  intros w. exists [WebpageRequest url video_id].
  unfold _download_webpage, bind, ask, lift. reflexivity.
Qed.

Lemma grows_manifest (h : Host) (url video_id ext proto mid : string) :
  grows (_extract_m3u8_formats h url video_id ext proto mid).
Proof. intros w. now exists [ManifestRequest url video_id]. Qed.

Create HintDb grows.
#[local] Hint Resolve grows_ret grows_raise grows_lift grows_time
  grows_download grows_manifest : grows.

Ltac grows :=
  repeat first
    [ progress auto with grows
    | apply grows_bind; [|intro]
    | match goal with
      | |- grows (match ?x with _ => _ end) => destruct x
      | |- grows (if ?b then _ else _) => destruct b
      end ].

Lemma grows_tiers_loop (h : Host) (stream : json) (token video_id : string)
      (sds : list string) :
  forall formats, grows (ABCIViewIE.tiers_loop h stream token video_id sds formats).
Proof.
  induction sds as [|sd rest IH]; intros formats; cbn [ABCIViewIE.tiers_loop].
  - grows.
  - apply grows_bind; [grows|intros sd_url].
    destruct (negb (truthy sd_url)); [apply IH|].
    apply grows_bind; [grows|intros m3u8_url].
    apply grows_bind; [grows|intros [|f fs]]; [apply IH|grows].
Qed.
#[local] Hint Resolve grows_tiers_loop : grows.

Lemma get_is_field (d : json) (key : string) (v : json) :
  get d key = Ok v -> forall key', get d key' = Ok (field d key').
Proof.
  destruct d; try discriminate. intros _ key'. unfold get, get_default, field.
  now destruct (lookup key' items).
Qed.

Lemma title_of_dict (video_params title : json) :
  title_of video_params = Ok title ->
  forall key, get video_params key = Ok (field video_params key).
Proof.
  unfold title_of, rbind. intros H key.
  destruct (get video_params "title") as [t|] eqn:Ht; [|discriminate].
  exact (get_is_field _ _ _ Ht key).
Qed.

(** The extractor up to the request for the token. *)
Lemma token_requested (h : Host) (url video_id webpage : string)
      (video_params title stream : json) (w : World) :
  catchup_page h url video_id webpage video_params ->
  title_of video_params = Ok title ->
  program_of video_params = Ok stream ->
  let path := ABCIViewIE.sign_path h (clock w) (field video_params "episodeHouseNumber") in
  exists rest,
    snd (ABCIViewIE._real_extract h url w)
    = asked w ([ WebpageRequest url video_id;
                 WebpageRequest (ABCIViewIE.token_url path (ABCIViewIE.signature path)) video_id ]
               ++ rest)%list.
Proof.
  intros (params_text & Hid & Hpage & Hre & Hjson) Htitle Hstream path.
  unfold ABCIViewIE._real_extract.
  rewrite (bind_lift_ok _ _ _ _ Hid), bind_download, Hpage.
  rewrite (bind_lift_ok _ _ _ _ Hre), (bind_lift_ok _ _ _ _ Hjson).
  rewrite (bind_lift_ok _ _ _ _ Htitle), (bind_lift_ok _ _ _ _ Hstream).
  rewrite (bind_lift_ok _ _ _ _ (title_of_dict _ _ Htitle "episodeHouseNumber")).
  rewrite bind_time. cbn [asked clock]. fold path.
  rewrite bind_download.
  destruct (download h (ABCIViewIE.token_url path (ABCIViewIE.signature path)) video_id)
    as [token|e].
  - match goal with
    | |- context [snd (?m ?w1)] =>
        assert (Hg : grows m) by grows; destruct (Hg w1) as [rest ->]
    end.
    exists rest. now rewrite !asked_asked.
  - exists []. now rewrite asked_asked.
Qed.

(** ** The signature *)

(** C1 — on every catch-up page that reaches the signing step, the request
    for the token carries the HMAC-SHA256 of the path
    [/auth/hls/sign?ts=<clock>&hn=<house number>&d=android-mobile] under the
    key "android.content.res.Resources", as 64 lowercase hexadecimal digits:
    the signature is a function of the path alone, and for the timestamp
    1514499187 and the house number ZW0898A003S00 it is the reference
    value. *)
Theorem signature_is_hmac_of_path
        (h : Host) (url video_id webpage : string)
        (video_params title stream : json) (w : World) :
  catchup_page h url video_id webpage video_params ->
  title_of video_params = Ok title ->
  program_of video_params = Ok stream ->
  let path :=
    "/auth/hls/sign?ts=" ++ str_of_int (clock w)
    ++ "&hn=" ++ format_value h (field video_params "episodeHouseNumber")
    ++ "&d=android-mobile" in
  let sig :=
    hexlify (HMAC.digest (bytes_of_string "android.content.res.Resources")
                         (bytes_of_string path)) in
  (exists rest,
      requests (snd (ABCIViewIE._real_extract h url w))
      = (requests w
         ++ [ WebpageRequest url video_id;
              WebpageRequest ("http://iview.abc.net.au" ++ path ++ "&sig=" ++ sig) video_id ]
         ++ rest)%list)
  /\ String.length sig = 64%nat
  /\ all_chars lower_hex sig = true
  /\ ABCIViewIE.signature "/auth/hls/sign?ts=1514499187&hn=ZW0898A003S00&d=android-mobile"
     = "7678c12bf5fe5e652ba34ffb42dbd56874cfc563b8b7fd470b50a23a6a2d0b17".
Proof.
  intros Hpage Htitle Hstream path sig.
  destruct (token_requested h url video_id webpage video_params title stream w
              Hpage Htitle Hstream) as [rest Hrest].
  split; [|split; [|split]].
  - exists rest. rewrite Hrest. reflexivity.
  - apply hmac_hex_shape.
  - apply hmac_hex_shape.
  - vm_compute. reflexivity.
Qed.

Lemma signature_is_hmac_of_path_witness :
  exists rest,
    requests (snd (ABCIViewIE._real_extract Fixture.full_episode Fixture.episode_url Fixture.w0))
    = ([ WebpageRequest Fixture.episode_url "ZW0898A003S00";
         WebpageRequest
           ("http://iview.abc.net.au/auth/hls/sign?ts=1514499187&hn=ZW0898A003S00&d=android-mobile&sig="
            ++ "7678c12bf5fe5e652ba34ffb42dbd56874cfc563b8b7fd470b50a23a6a2d0b17")
           "ZW0898A003S00" ] ++ rest)%list.
Proof.
  assert (Hpage : catchup_page Fixture.full_episode Fixture.episode_url "ZW0898A003S00"
                    Fixture.episode_page
                    (Fixture.episode_params [ ("episodeHouseNumber", JStr "ZW0898A003S00") ]
                       [ Fixture.preroll; Fixture.program_entry Fixture.both_tiers ])).
  { exists "{...}". split; [|split; [|split]]; reflexivity. }
  destruct (signature_is_hmac_of_path
              Fixture.full_episode Fixture.episode_url "ZW0898A003S00"
              Fixture.episode_page
              (Fixture.episode_params [ ("episodeHouseNumber", JStr "ZW0898A003S00") ]
                 [ Fixture.preroll; Fixture.program_entry Fixture.both_tiers ])
              (JStr "Series 5 Ep 3")
              (Fixture.program_entry Fixture.both_tiers)
              Fixture.w0 Hpage eq_refl eq_refl) as [[rest Hrest] _].
  exists rest. rewrite Hrest. vm_compute. reflexivity.
Defined.

(** C10 — a configuration without [episodeHouseNumber] does not stop the
    signing: the house number is written "None" in the path, the path is
    signed, and the token is asked for with that path and signature. *)
Theorem missing_house_number_signs_None
        (h : Host) (url video_id webpage : string)
        (items : list (string * json)) (title stream : json) (w : World) :
  catchup_page h url video_id webpage (JObj items) ->
  lookup "episodeHouseNumber" items = None ->
  title_of (JObj items) = Ok title ->
  program_of (JObj items) = Ok stream ->
  let path :=
    "/auth/hls/sign?ts=" ++ str_of_int (clock w) ++ "&hn=None&d=android-mobile" in
  exists rest,
    requests (snd (ABCIViewIE._real_extract h url w))
    = (requests w
       ++ [ WebpageRequest url video_id;
            WebpageRequest
              ("http://iview.abc.net.au" ++ path ++ "&sig=" ++ ABCIViewIE.signature path)
              video_id ]
       ++ rest)%list.
Proof.
  intros Hpage Hmissing Htitle Hstream path.
  destruct (token_requested h url video_id webpage (JObj items) title stream w
              Hpage Htitle Hstream) as [rest Hrest].
  exists rest. rewrite Hrest.
  unfold ABCIViewIE.sign_path, field. rewrite Hmissing. reflexivity.
Qed.

Lemma missing_house_number_signs_None_witness :
  exists rest,
    requests (snd (ABCIViewIE._real_extract Fixture.unnumbered_episode Fixture.episode_url
                     Fixture.w0))
    = ([ WebpageRequest Fixture.episode_url "ZW0898A003S00";
         WebpageRequest
           ("http://iview.abc.net.au/auth/hls/sign?ts=1514499187&hn=None&d=android-mobile&sig="
            ++ "261b551a8d4b1217460475928e09435c460a779f3a3bdc451ca4c1116c0cb18f")
           "ZW0898A003S00" ] ++ rest)%list.
Proof.
  assert (Hpage : catchup_page Fixture.unnumbered_episode Fixture.episode_url "ZW0898A003S00"
                    Fixture.episode_page
                    (Fixture.episode_params []
                       [ Fixture.preroll; Fixture.program_entry Fixture.both_tiers ])).
  { exists "{...}". split; [|split; [|split]]; reflexivity. }
  destruct (missing_house_number_signs_None
              Fixture.unnumbered_episode Fixture.episode_url "ZW0898A003S00"
              Fixture.episode_page
              [ ("title", JStr "Series 5 Ep 3");
                ("seriesTitle", JStr "Call The Midwife");
                ("channel", JStr "abc1");
                ("playlist", JList [ Fixture.preroll; Fixture.program_entry Fixture.both_tiers ]) ]
              (JStr "Series 5 Ep 3")
              (Fixture.program_entry Fixture.both_tiers)
              Fixture.w0 Hpage eq_refl eq_refl eq_refl) as [rest Hrest].
  exists rest. rewrite Hrest. vm_compute. reflexivity.
Defined.

(** ** Articles *)

Ltac article_start Hpage :=
  let Hid := fresh "Hid" in
  let Hget := fresh "Hget" in
  destruct Hpage as [Hid Hget];
  unfold ABCIE._real_extract;
  rewrite (bind_lift_ok _ _ _ _ Hid), bind_download, Hget.

(** C5, as the code has it — an article without an inline data block: when
    the search for the "expired" notice gives a text that is not empty, the
    extraction fails with an expected error whose message is
    "abc.net.au said: " and that text; in every other case, no notice or a
    notice whose text is empty, it fails with the plain error
    "Unable to extract video urls". *)
Theorem expired_or_unrecognised (h : Host) (url video_id webpage : string) (w : World) :
  article_page h url video_id webpage ->
  re_search h ABCIE.inline_data_re webpage = None ->
  fst (ABCIE._real_extract h url w)
  = Raise match html_search_regex h ABCIE.expired_re webpage "expired" with
          | Some text =>
              if (text =? EmptyString)%string
              then ExtractorError "Unable to extract video urls" false
              else ExtractorError ("abc.net.au said: " ++ text) true
          | None => ExtractorError "Unable to extract video urls" false
          end.
Proof.
  intros Hpage Hre. article_start Hpage. rewrite Hre.
  destruct (html_search_regex h ABCIE.expired_re webpage "expired") as [text|];
    [|reflexivity].
  cbn [of_option truthy]. now destruct (text =? EmptyString)%string.
Qed.

Lemma expired_or_unrecognised_witness :
  fst (ABCIE._real_extract Fixture.expired_article Fixture.article_url Fixture.w0)
  = Raise (ExtractorError "abc.net.au said: This video has expired." true)
  /\ fst (ABCIE._real_extract Fixture.unrecognised_article Fixture.article_url Fixture.w0)
     = Raise (ExtractorError "Unable to extract video urls" false).
Proof.
  split.
  - rewrite (expired_or_unrecognised Fixture.expired_article Fixture.article_url "5868334"
               Fixture.expired_page Fixture.w0).
    + reflexivity.
    + split; reflexivity.
    + reflexivity.
  - rewrite (expired_or_unrecognised Fixture.unrecognised_article Fixture.article_url
               "6866214" Fixture.unrecognised_page Fixture.w0).
    + reflexivity.
    + split; reflexivity.
    + reflexivity.
Defined.

(** C5, as it is worded, fails: this page has the "expired" notice, the
    search for it succeeds, but the text it gives is empty once cleaned, and
    the extraction ends with the plain error, not with the expected one. *)
Lemma blank_banner_is_unrecognised :
  re_search Scenario.blank_banner_article ABCIE.inline_data_re Scenario.blank_banner_page
  = None
  /\ html_search_regex Scenario.blank_banner_article ABCIE.expired_re
       Scenario.blank_banner_page "expired" = Some EmptyString
  /\ fst (ABCIE._real_extract Scenario.blank_banner_article Fixture.article_url Fixture.w0)
     = Raise (ExtractorError "Unable to extract video urls" false)
  /\ forall msg,
       fst (ABCIE._real_extract Scenario.blank_banner_article Fixture.article_url Fixture.w0)
       <> Raise (ExtractorError msg true).
Proof.
  split; [reflexivity|]. split; [reflexivity|]. split; [reflexivity|].
  intros msg. discriminate.
Qed.

Lemma redirects_in_order (elements : list json) (urls : list json) :
  Forall2 (fun url_info u => getitem url_info "url" = Ok u) elements urls ->
  comprehension (fun url_info => u <~ getitem url_info "url" ;; Ok (url_result u)) elements
  = Ok (map url_result urls).
Proof.
  induction 1 as [|e u elements urls He _ IH]; cbn [comprehension map].
  - reflexivity.
  - now rewrite He, IH.
Qed.

(** C7 — an article whose inline data block is of type YouTube gives a
    playlist with one redirect for each element of the parsed data, made of
    that element's [url], in the order of the elements. *)
Theorem youtube_playlist_in_order
        (h : Host) (url video_id webpage : string) (mobj : match_object)
        (data : json) (urls : list json) (w : World) :
  article_page h url video_id webpage ->
  inline_block h video_id webpage mobj data ->
  mobj "type" = "YouTube" ->
  Forall2 (fun url_info u => getitem url_info "url" = Ok u) (as_list data) urls ->
  fst (ABCIE._real_extract h url w) = Ok (playlist_result (map url_result urls)).
Proof.
  intros Hpage [Hre Hjson] Htype Hurls. article_start Hpage.
  rewrite Hre, (bind_lift_ok _ _ _ _ Hjson), Htype. cbn [String.eqb Ascii.eqb Bool.eqb].
  cbv iota.
  rewrite (bind_lift_ok _ _ _ _ (redirects_in_order _ _ Hurls)).
  reflexivity.
Qed.

Lemma youtube_playlist_in_order_witness :
  fst (ABCIE._real_extract Fixture.youtube_article Fixture.article_url Fixture.w0)
  = Ok (playlist_result
          [ url_result (JStr "http://www.youtube.com/watch?v=NvqvPeNZsHU");
            url_result (JStr "http://www.youtube.com/watch?v=dQw4w9WgXcQ") ]).
Proof.
  apply (youtube_playlist_in_order Fixture.youtube_article Fixture.article_url "6702326"
           Fixture.youtube_page
           (Fixture.group "YouTube" "[...]") Fixture.youtube_data
           [ JStr "http://www.youtube.com/watch?v=NvqvPeNZsHU";
             JStr "http://www.youtube.com/watch?v=dQw4w9WgXcQ" ]
           Fixture.w0).
  - split; reflexivity.
  - split; reflexivity.
  - reflexivity.
  - repeat constructor.
Defined.

Lemma getitem_dict (d : json) (key : string) (v : json) :
  getitem d key = Ok v ->
  field d key = v /\ forall key', get d key' = Ok (field d key').
Proof.
  destruct d; try discriminate. unfold getitem, get, get_default, field.
  destruct (lookup key items) eqn:Hk; [|discriminate].
  intros [= ->]. split; [reflexivity|].
  intros key'. now destruct (lookup key' items).
Qed.

(** Once the [url] of an element is there, nothing in the element can make
    the construction of its format raise. *)
Lemma format_of_expected (type : string) (url_info u : json) :
  getitem url_info "url" = Ok u ->
  ABCIE.format_of type url_info = Ok (expected_format type url_info).
Proof.
  intros Hu. destruct (getitem_dict _ _ _ Hu) as [Hfield Hget].
  unfold ABCIE.format_of, expected_format.
  rewrite Hu, !Hget, Hfield. cbn [rbind].
  destruct (type =? "Video")%string; reflexivity.
Qed.

Lemma formats_as_expected (type : string) (elements : list json) :
  (forall url_info, In url_info elements -> exists u, getitem url_info "url" = Ok u) ->
  comprehension (ABCIE.format_of type) elements
  = Ok (map (expected_format type) elements).
Proof.
  induction elements as [|e elements IH]; intros Hurl; cbn [comprehension map].
  - reflexivity.
  - destruct (Hurl e (or_introl eq_refl)) as [u Hu].
    rewrite (format_of_expected _ _ _ Hu), IH; [reflexivity|].
    intros e' He'. apply Hurl. now right.
Qed.

(** C8 — for an article with a Video or Audio data block the list handed to
    the sort holds one format for each element of the parsed data, in order:
    its [vcodec] is the element's [codec] for Video and "none" for Audio,
    and [width], [height], [tbr] and [filesize] are [int_or_none] of the
    fields [width], [height], [bitrate] and [filesize], which is [None] for a
    missing or unreadable value; as long as every element has a [url],
    building the formats does not raise. *)
Theorem one_format_per_element
        (h : Host) (url video_id webpage : string) (mobj : match_object)
        (data : json) (w : World) :
  article_page h url video_id webpage ->
  inline_block h video_id webpage mobj data ->
  mobj "type" = "Video" \/ mobj "type" = "Audio" ->
  (forall url_info, In url_info (as_list data) -> exists u, getitem url_info "url" = Ok u) ->
  let built := map (expected_format (mobj "type")) (as_list data) in
  comprehension (ABCIE.format_of (mobj "type")) (as_list data) = Ok built
  /\ fst (ABCIE._real_extract h url w)
     = (formats <~ sort_formats h built ;;
        title <~ og_search_title h webpage ;;
        Ok (info_dict (Article.Make video_id title formats
                         (og_search_description h webpage)
                         (og_search_thumbnail h webpage)))).
Proof.
  intros Hpage [Hre Hjson] Htype Hurls built.
  pose proof (formats_as_expected (mobj "type") _ Hurls) as Hbuilt.
  split; [exact Hbuilt|].
  article_start Hpage. rewrite Hre, (bind_lift_ok _ _ _ _ Hjson).
  replace (mobj "type" =? "YouTube")%string with false
    by (destruct Htype as [-> | ->]; reflexivity).
  rewrite (bind_lift_ok _ _ _ _ Hbuilt). fold built.
  rewrite !bind_lift. unfold rbind.
  destruct (sort_formats h built); [|reflexivity].
  rewrite bind_lift. now destruct (og_search_title h webpage).
Qed.

Lemma one_format_per_element_witness :
  fst (ABCIE._real_extract Fixture.audio_article Fixture.article_url Fixture.w0)
  = Ok (info_dict
          (Article.Make "6880080" "ABC News"
             [ MediaFormat.Make
                 (JStr "http://mpegmedia.abc.net.au/news/audio/am/201510/20151023-am5-nab.mp3")
                 (JStr "none") None None (Some 32) (Some 846676);
               MediaFormat.Make
                 (JStr "http://mpegmedia.abc.net.au/news/audio/am/201510/20151023-am5-nab.ogg")
                 (JStr "none") None None (Some 64) None ]
             None None)).
Proof.
  destruct (one_format_per_element Fixture.audio_article Fixture.article_url "6880080"
              Fixture.audio_page
              (Fixture.group "Audio" "[...]") Fixture.audio_data Fixture.w0)
    as [_ Hrun].
  - split; reflexivity.
  - split; reflexivity.
  - right. reflexivity.
  - intros url_info [<- | [<- | []]]; eexists; reflexivity.
  - rewrite Hrun. reflexivity.
Defined.

(** ** What a returned record holds *)

Lemma fst_bind_inv {A B} (m : M A) (k : A -> M B) (w : World) (b : B) :
  fst (bind m k w) = Ok b ->
  exists a w1, m w = (Ok a, w1) /\ fst (k a w1) = Ok b.
Proof.
  unfold bind. destruct (m w) as [[a|e] w1]; [eauto|discriminate].
Qed.

Lemma fst_bind_lift_inv {A B} (r : result A) (k : A -> M B) (w : World) (b : B) :
  fst (bind (lift r) k w) = Ok b ->
  exists a, r = Ok a /\ fst (k a w) = Ok b.
Proof.
  rewrite bind_lift. destruct r as [a|e]; [eauto|discriminate].
Qed.

Ltac invert_lift H :=
  let a := fresh "a" in
  let Ha := fresh "Ha" in
  apply fst_bind_lift_inv in H; destruct H as (a & Ha & H); cbv zeta in H.

Lemma comprehension_in {A B} (f : A -> result B) (l : list A) :
  forall bs b, comprehension f l = Ok bs -> In b bs ->
               exists a, In a l /\ f a = Ok b.
Proof.
  induction l as [|a l IH]; cbn [comprehension]; intros bs b.
  - intros [= <-] [].
  - unfold rbind. destruct (f a) as [b0|] eqn:Hfa; [|discriminate].
    destruct (comprehension f l) as [bs0|]; [|discriminate].
    intros [= <-] [<- | Hin].
    + exists a. split; [now left|exact Hfa].
    + destruct (IH bs0 b eq_refl Hin) as (a' & Ha' & Hfa').
      exists a'. split; [now right|exact Hfa'].
Qed.

Lemma format_of_url (type : string) (url_info : json) (f : MediaFormat.t) :
  ABCIE.format_of type url_info = Ok f ->
  getitem url_info "url" = Ok (MediaFormat.url f).
Proof.
  unfold ABCIE.format_of, rbind.
  destruct (getitem url_info "url") as [u|]; [|discriminate].
  destruct (if (type =? "Video")%string then get url_info "codec" else Ok (JStr "none"));
    [|discriminate].
  repeat match goal with
         | |- context [match get ?d ?k with _ => _ end] =>
             destruct (get d k); [|discriminate]
         end.
  now intros [= <-].
Qed.

Lemma sorted_nonempty (h : Host) (l l' : list MediaFormat.t) :
  sorts h -> sort_formats h l = Ok l' -> l' <> [] /\ Permutation l l'.
Proof.
  intros [[e He] Hperm] Hsort. pose proof (Hperm _ _ Hsort) as Hp.
  split; [|exact Hp].
  intros ->. apply Permutation_sym, Permutation_nil in Hp. subst l. congruence.
Qed.

(** The loop leaves [formats] as it found it, or bound to what the manifest
    of one tier with a URL holds. *)
Lemma tiers_loop_selects (h : Host) (stream : json) (token video_id : string)
      (sds : list string) :
  forall formats w,
  exists result,
    fst (ABCIViewIE.tiers_loop h stream token video_id sds formats w) = Ok result
    /\ (result = formats
        \/ exists sd u,
             In sd sds /\ tier_url stream sd = Some u
             /\ result = Some (extract_m3u8_formats h
                                 (update_url_query h u [("hdnea", token)])
                                 video_id "mp4" "m3u8_native" "hls")).
Proof.
  induction sds as [|sd rest IH]; intros formats w.
  - exists formats. split; [reflexivity|now left].
  - rewrite tiers_loop_step.
    destruct (tier_url stream sd) as [u|] eqn:Hu; cbv zeta.
    + destruct (extract_m3u8_formats h _ video_id "mp4" "m3u8_native" "hls")
        as [|f fs] eqn:Hparse.
      * match goal with
        | |- context [ABCIViewIE.tiers_loop _ _ _ _ _ ?fo ?w1] =>
            destruct (IH fo w1) as (result & Hrun & Hres)
        end.
        exists result. split; [exact Hrun|]. right.
        destruct Hres as [-> | (sd' & u' & Hin & Hu' & ->)].
        -- exists sd, u. rewrite Hparse. repeat split; [now left|exact Hu].
        -- exists sd', u'. repeat split; [now right|exact Hu'].
      * eexists. split; [reflexivity|]. right.
        exists sd, u. rewrite Hparse. repeat split; [now left|exact Hu].
    + destruct (IH formats w) as (result & Hrun & Hres).
      exists result. split; [exact Hrun|].
      destruct Hres as [-> | (sd' & u' & Hin & Hu' & ->)]; [now left|right].
      exists sd', u'. repeat split; [now right|exact Hu'].
Qed.

Lemma article_formats
      (h : Host) (url video_id webpage : string) (mobj : match_object)
      (data : json) (w : World) (info : Article.t) :
  article_page h url video_id webpage ->
  inline_block h video_id webpage mobj data ->
  fst (ABCIE._real_extract h url w) = Ok (info_dict info) ->
  exists built,
    comprehension (ABCIE.format_of (mobj "type")) (as_list data) = Ok built
    /\ sort_formats h built = Ok (Article.formats info).
Proof.
  intros Hpage [Hre Hjson]. article_start Hpage.
  rewrite Hre, (bind_lift_ok _ _ _ _ Hjson).
  destruct (mobj "type" =? "YouTube")%string.
  - intros H. invert_lift H. discriminate.
  - intros H. invert_lift H. exists a. split; [exact Ha|].
    invert_lift H. invert_lift H. injection H as <-. exact Ha0.
Qed.

Lemma episode_formats
      (h : Host) (url video_id webpage : string) (video_params stream : json)
      (token : string) (w : World) (info : Episode.t) :
  catchup_page h url video_id webpage video_params ->
  program_of video_params = Ok stream ->
  (let path := ABCIViewIE.sign_path h (clock w) (field video_params "episodeHouseNumber") in
   download h (ABCIViewIE.token_url path (ABCIViewIE.signature path)) video_id = Ok token) ->
  fst (ABCIViewIE._real_extract h url w) = Ok info ->
  exists w1 parsed,
    fst (ABCIViewIE.tiers_loop h stream token video_id ["sd"; "sd-low"] None w1) = Ok (Some parsed)
    /\ sort_formats h parsed = Ok (Episode.formats info).
Proof.
  intros (params_text & Hid & Hpage & Hre & Hjson) Hstream Htoken.
  unfold ABCIViewIE._real_extract.
  rewrite (bind_lift_ok _ _ _ _ Hid), bind_download, Hpage.
  rewrite (bind_lift_ok _ _ _ _ Hre), (bind_lift_ok _ _ _ _ Hjson).
  intros H. invert_lift H. rename a into title, Ha into Htitle.
  rewrite (bind_lift_ok _ _ _ _ Hstream) in H.
  rewrite (bind_lift_ok _ _ _ _ (title_of_dict _ _ Htitle "episodeHouseNumber")) in H.
  rewrite bind_time in H. cbn [asked clock] in H.
  cbv zeta in H, Htoken. rewrite bind_download, Htoken in H.
  apply fst_bind_inv in H. destruct H as (formats & w1 & Hloop & H).
  match type of Hloop with
  | ABCIViewIE.tiers_loop _ _ _ _ _ _ ?w0 = _ => exists w0
  end.
  destruct formats as [parsed|].
  - exists parsed. rewrite Hloop. split; [reflexivity|].
    invert_lift H. rename a into sorted, Ha into Hsorted.
    repeat invert_lift H. injection H as <-. exact Hsorted.
  - discriminate.
Qed.

(** C6, as the code has it — a returned record never has an empty list of
    formats, because [_sort_formats] refuses one.  The [url] of a format is
    not examined: for an article it is the [url] of an element of the parsed
    data, whatever that value is; for a catch-up page the formats are those
    the manifest of one tier with a URL holds, reordered. *)
Theorem formats_nonempty_and_passed_through (h : Host) :
  sorts h ->
  (forall url video_id webpage mobj data w info,
      article_page h url video_id webpage ->
      inline_block h video_id webpage mobj data ->
      fst (ABCIE._real_extract h url w) = Ok (info_dict info) ->
      Article.formats info <> []
      /\ forall f, In f (Article.formats info) ->
                   exists url_info,
                     In url_info (as_list data)
                     /\ getitem url_info "url" = Ok (MediaFormat.url f))
  /\ (forall url video_id webpage video_params stream token w info,
      catchup_page h url video_id webpage video_params ->
      program_of video_params = Ok stream ->
      (let path := ABCIViewIE.sign_path h (clock w) (field video_params "episodeHouseNumber") in
       download h (ABCIViewIE.token_url path (ABCIViewIE.signature path)) video_id = Ok token) ->
      fst (ABCIViewIE._real_extract h url w) = Ok info ->
      Episode.formats info <> []
      /\ exists sd u,
           In sd ["sd"; "sd-low"] /\ tier_url stream sd = Some u
           /\ Permutation
                (extract_m3u8_formats h (update_url_query h u [("hdnea", token)])
                   video_id "mp4" "m3u8_native" "hls")
                (Episode.formats info)).
Proof.
  intros Hsorts. split.
  - intros url video_id webpage mobj data w info Hpage Hblock Hrun.
    destruct (article_formats _ _ _ _ _ _ _ _ Hpage Hblock Hrun) as (built & Hbuilt & Hsort).
    destruct (sorted_nonempty _ _ _ Hsorts Hsort) as [Hne Hperm].
    split; [exact Hne|].
    intros f Hf. apply (Permutation_in _ (Permutation_sym Hperm)) in Hf.
    destruct (comprehension_in _ _ _ _ Hbuilt Hf) as (url_info & Hin & Hfmt).
    exists url_info. split; [exact Hin|exact (format_of_url _ _ _ Hfmt)].
  - intros url video_id webpage video_params stream token w info Hpage Hstream Htoken Hrun.
    destruct (episode_formats _ _ _ _ _ _ _ _ _ Hpage Hstream Htoken Hrun)
      as (w1 & parsed & Hloop & Hsort).
    destruct (sorted_nonempty _ _ _ Hsorts Hsort) as [Hne Hperm].
    split; [exact Hne|].
    destruct (tiers_loop_selects h stream token video_id ["sd"; "sd-low"] None w1)
      as (result & Hres & Hsel).
    rewrite Hloop in Hres. injection Hres as <-.
    destruct Hsel as [Hnone | (sd & u & Hin & Hu & Hparsed)]; [discriminate|].
    injection Hparsed as ->. now exists sd, u.
Qed.

Lemma fixture_sorts video_id webpage mobj expired data manifest :
  sorts (Fixture.host video_id webpage mobj expired data manifest).
Proof.
  split.
  - eexists. reflexivity.
  - intros [|f l] l'; [discriminate|]. intros [= <-]. apply Permutation_refl.
Qed.

Lemma formats_nonempty_and_passed_through_witness :
  (Article.formats Fixture.video_info <> []
   /\ forall f, In f (Article.formats Fixture.video_info) ->
                exists url_info,
                  In url_info (as_list Fixture.video_data)
                  /\ getitem url_info "url" = Ok (MediaFormat.url f))
  /\ (Episode.formats Fixture.full_episode_info <> []
      /\ exists sd u,
           In sd ["sd"; "sd-low"]
           /\ tier_url (Fixture.program_entry Fixture.both_tiers) sd = Some u
           /\ Permutation
                (extract_m3u8_formats Fixture.full_episode
                   (update_url_query Fixture.full_episode u [("hdnea", Fixture.token)])
                   "ZW0898A003S00" "mp4" "m3u8_native" "hls")
                (Episode.formats Fixture.full_episode_info)).
Proof.
  destruct (formats_nonempty_and_passed_through Fixture.full_episode
              (fixture_sorts _ _ _ _ _ _)) as [_ Hepisode].
  destruct (formats_nonempty_and_passed_through Fixture.video_article
              (fixture_sorts _ _ _ _ _ _)) as [Harticle _].
  split.
  - apply (Harticle Fixture.article_url "5868334"
             Fixture.video_page
             (Fixture.group "Video" "{...}") Fixture.video_data Fixture.w0
             Fixture.video_info).
    + split; reflexivity.
    + split; reflexivity.
    + reflexivity.
  - apply (Hepisode Fixture.episode_url "ZW0898A003S00"
             Fixture.episode_page
             (Fixture.episode_params [ ("episodeHouseNumber", JStr "ZW0898A003S00") ]
                [ Fixture.preroll; Fixture.program_entry Fixture.both_tiers ])
             (Fixture.program_entry Fixture.both_tiers)
             Fixture.token Fixture.w0 Fixture.full_episode_info).
    + exists "{...}". split; [|split; [|split]]; reflexivity.
    + reflexivity.
    + reflexivity.
    + vm_compute. reflexivity.
Defined.

(** C6, as it is worded, fails: an article whose data gives an empty [url]
    is answered with a record whose format has that empty [url]. *)
Lemma empty_url_is_returned :
  fst (ABCIE._real_extract Fixture.empty_url_article Fixture.article_url Fixture.w0)
  = Ok (info_dict
          (Article.Make "6880080" "ABC News"
             [ MediaFormat.Make (JStr EmptyString) (JStr "AVC") None None None None ]
             None None))
  /\ ~ every_format_has_url
         [ MediaFormat.Make (JStr EmptyString) (JStr "AVC") None None None None ].
Proof.
  split; [reflexivity|].
  intros H. inversion H as [|f fs [s [Hs Hne]] _]; subst.
  simpl in Hs. injection Hs as <-. now apply Hne.
Qed.

(** ** Calling twice *)

Lemma steady_ret {A} (a : A) : steady (ret a).
Proof. now intros w w'. Qed.

Lemma steady_raise {A} (e : exn) : steady (@raise A e).
Proof. now intros w w'. Qed.

Lemma steady_lift {A} (r : result A) : steady (lift r).
Proof. now intros w w'. Qed.

Lemma steady_bind {A B} (m : M A) (k : A -> M B) :
  steady m -> (forall a, steady (k a)) -> steady (bind m k).
Proof.
  intros Hm Hk w w'. unfold bind. specialize (Hm w w').
  destruct (m w) as [[a|e] w1], (m w') as [[a'|e'] w1']; simpl in Hm;
    try discriminate; injection Hm as <-; [apply Hk|reflexivity].
Qed.

Lemma steady_download (h : Host) (url video_id : string) :
  steady (_download_webpage h url video_id).
Proof.
  intros w w'. unfold _download_webpage, bind, ask, lift. reflexivity.
Qed.

Lemma steady_manifest (h : Host) (url video_id ext proto mid : string) :
  steady (_extract_m3u8_formats h url video_id ext proto mid).
Proof. now intros w w'. Qed.

Create HintDb steady.
#[local] Hint Resolve steady_ret steady_raise steady_lift
  steady_download steady_manifest : steady.

Ltac steady :=
  repeat first
    [ progress auto with steady
    | apply steady_bind; [|intro]
    | match goal with
      | |- steady (match ?x with _ => _ end) => destruct x
      | |- steady (if ?b then _ else _) => destruct b
      end ].

Lemma steady_tiers_loop (h : Host) (stream : json) (token video_id : string)
      (sds : list string) :
  forall formats, steady (ABCIViewIE.tiers_loop h stream token video_id sds formats).
Proof.
  induction sds as [|sd rest IH]; intros formats; cbn [ABCIViewIE.tiers_loop].
  - steady.
  - apply steady_bind; [steady|intros sd_url].
    destruct (negb (truthy sd_url)); [apply IH|].
    apply steady_bind; [steady|intros m3u8_url].
    apply steady_bind; [steady|intros [|f fs]]; [apply IH|steady].
Qed.
#[local] Hint Resolve steady_tiers_loop : steady.

Lemma steady_article (h : Host) (url : string) : steady (ABCIE._real_extract h url).
Proof. unfold ABCIE._real_extract. steady. Qed.

(** Reading the clock and asking for the token is the one step that looks at
    the time; it is steady when the answer of the token endpoint is. *)
Lemma steady_signed_request {B} (h : Host) (video_id : string)
      (request_url : Z -> string) (k : string -> M B) :
  (forall ts ts', download h (request_url ts) video_id
                  = download h (request_url ts') video_id) ->
  (forall token, steady (k token)) ->
  steady (bind time (fun now => bind (_download_webpage h (request_url now) video_id) k)).
Proof.
  intros Hfixed Hk w w'. rewrite !bind_time, !bind_download.
  rewrite (Hfixed (clock w) (clock w')).
  destruct (download h (request_url (clock w')) video_id); [apply Hk|reflexivity].
Qed.

(** C9 — with the page, the token and the manifests fixed, whatever the
    clock shows and whatever has been asked before, the outcome of an
    extraction is the same: the timestamp only shows in the URL the token is
    asked with. *)
Theorem extraction_repeatable (h : Host) (url : string) (w w' : World) :
  fst (ABCIE._real_extract h url w) = fst (ABCIE._real_extract h url w')
  /\ ((forall video_id house_number ts ts',
          download h (ABCIViewIE.token_url
                        (ABCIViewIE.sign_path h ts house_number)
                        (ABCIViewIE.signature (ABCIViewIE.sign_path h ts house_number)))
                   video_id
          = download h (ABCIViewIE.token_url
                          (ABCIViewIE.sign_path h ts' house_number)
                          (ABCIViewIE.signature (ABCIViewIE.sign_path h ts' house_number)))
                     video_id) ->
      fst (ABCIViewIE._real_extract h url w) = fst (ABCIViewIE._real_extract h url w')).
Proof.
  split; [apply steady_article|].
  intros Hfixed. revert w w'. change (steady (ABCIViewIE._real_extract h url)).
  unfold ABCIViewIE._real_extract.
  do 7 (apply steady_bind; [steady|intro]).
  cbv zeta.
  apply (steady_signed_request h _
           (fun now => ABCIViewIE.token_url
                         (ABCIViewIE.sign_path h now _)
                         (ABCIViewIE.signature (ABCIViewIE.sign_path h now _)))).
  - intros ts ts'. apply Hfixed.
  - intros token. steady.
Qed.

Lemma extraction_repeatable_witness :
  fst (ABCIE._real_extract Fixture.audio_article Fixture.article_url Fixture.w0)
  = fst (ABCIE._real_extract Fixture.audio_article Fixture.article_url Fixture.w1)
  /\ fst (ABCIViewIE._real_extract Fixture.full_episode Fixture.episode_url Fixture.w0)
     = fst (ABCIViewIE._real_extract Fixture.full_episode Fixture.episode_url Fixture.w1).
Proof.
  destruct (extraction_repeatable Fixture.audio_article Fixture.article_url
              Fixture.w0 Fixture.w1) as [Harticle _].
  destruct (extraction_repeatable Fixture.full_episode Fixture.episode_url
              Fixture.w0 Fixture.w1) as [_ Hepisode].
  split; [exact Harticle|].
  apply Hepisode. intros video_id house_number ts ts'. reflexivity.
Defined.

(** ** Where the extraction of an episode breaks *)

(** With no URL in either tier the loop binds nothing, and the call of
    [_sort_formats] reads a variable that was never assigned. *)
Lemma no_tier_unbound_formats
      (h : Host) (url video_id webpage : string)
      (video_params title stream : json) (token : string) (w : World) :
  catchup_page h url video_id webpage video_params ->
  title_of video_params = Ok title ->
  program_of video_params = Ok stream ->
  (let path := ABCIViewIE.sign_path h (clock w) (field video_params "episodeHouseNumber") in
   download h (ABCIViewIE.token_url path (ABCIViewIE.signature path)) video_id = Ok token) ->
  tier_url stream "sd" = None ->
  tier_url stream "sd-low" = None ->
  fst (ABCIViewIE._real_extract h url w) = Raise (UnboundLocalError "formats").
Proof.
  intros (params_text & Hid & Hpage & Hre & Hjson) Htitle Hstream Htoken Hsd Hlow.
  unfold ABCIViewIE._real_extract.
  rewrite (bind_lift_ok _ _ _ _ Hid), bind_download, Hpage.
  rewrite (bind_lift_ok _ _ _ _ Hre), (bind_lift_ok _ _ _ _ Hjson).
  rewrite (bind_lift_ok _ _ _ _ Htitle), (bind_lift_ok _ _ _ _ Hstream).
  rewrite (bind_lift_ok _ _ _ _ (title_of_dict _ _ Htitle "episodeHouseNumber")).
  rewrite bind_time. cbn [asked clock]. cbv zeta in Htoken |- *.
  rewrite bind_download, Htoken.
  unfold bind at 1. rewrite !tiers_loop_step, Hsd, Hlow. reflexivity.
Qed.

(** When every tier that has a URL parses to nothing, [_sort_formats] is
    handed an empty list or nothing at all, and no record comes back. *)
Lemma no_format_no_record
      (h : Host) (url video_id webpage : string)
      (video_params stream : json) (token : string) (w : World) :
  sorts h ->
  catchup_page h url video_id webpage video_params ->
  program_of video_params = Ok stream ->
  (let path := ABCIViewIE.sign_path h (clock w) (field video_params "episodeHouseNumber") in
   download h (ABCIViewIE.token_url path (ABCIViewIE.signature path)) video_id = Ok token) ->
  (forall sd u,
      In sd ["sd"; "sd-low"] -> tier_url stream sd = Some u ->
      extract_m3u8_formats h (update_url_query h u [("hdnea", token)])
        video_id "mp4" "m3u8_native" "hls" = []) ->
  exists e, fst (ABCIViewIE._real_extract h url w) = Raise e.
Proof.
  intros Hsorts Hpage Hstream Htoken Hnothing.
  destruct (fst (ABCIViewIE._real_extract h url w)) as [info|e] eqn:Hrun; [|now exists e].
  exfalso.
  destruct (episode_formats _ _ _ _ _ _ _ _ _ Hpage Hstream Htoken Hrun)
    as (w1 & parsed & Hloop & Hsort).
  destruct (sorted_nonempty _ _ _ Hsorts Hsort) as [Hne Hperm].
  destruct (tiers_loop_selects h stream token video_id ["sd"; "sd-low"] None w1)
    as (result & Hres & Hsel).
  rewrite Hloop in Hres. injection Hres as <-.
  destruct Hsel as [Hnone | (sd & u & Hin & Hu & Hparsed)]; [discriminate|].
  injection Hparsed as ->. rewrite (Hnothing sd u Hin Hu) in Hperm.
  apply Permutation_nil in Hperm. now apply Hne.
Qed.

(** C3, on the code — the programme entry of this page carries no "sd" and
    no "sd-low" URL: no manifest is asked for, and the extraction ends in
    [UnboundLocalError], not in an extraction error. *)
Theorem tierless_episode_unbound_formats :
  ABCIViewIE._real_extract Fixture.tierless_episode Fixture.episode_url Fixture.w0
  = (Raise (UnboundLocalError "formats"),
     MkWorld 1514499187
       [ WebpageRequest Fixture.episode_url "ZW0898A003S00";
         WebpageRequest
           ("http://iview.abc.net.au/auth/hls/sign?ts=1514499187&hn=ZW0898A003S00&d=android-mobile&sig="
            ++ "7678c12bf5fe5e652ba34ffb42dbd56874cfc563b8b7fd470b50a23a6a2d0b17")
           "ZW0898A003S00" ]).
Proof. vm_compute. reflexivity. Qed.

(** The generator expression gives the first entry whose [type] is
    "program", and [next] raises [StopIteration] when it finds none. *)
Lemma next_program_first (before after : list json) (s : json) :
  Forall (fun s' => exists t, get s' "type" = Ok t /\ eq_str t "program" = false) before ->
  (exists t, get s "type" = Ok t /\ eq_str t "program" = true) ->
  ABCIViewIE.next_program (before ++ s :: after)%list = Ok s.
Proof.
  intros Hbefore (t & Ht & Hprog).
  induction Hbefore as [|s' before (t' & Ht' & Hother) _ IH]; cbn [app ABCIViewIE.next_program].
  - rewrite Ht. cbn [rbind]. now rewrite Hprog.
  - rewrite Ht'. cbn [rbind]. now rewrite Hother.
Qed.

Lemma next_program_none (playlist : list json) :
  Forall (fun s => exists t, get s "type" = Ok t /\ eq_str t "program" = false) playlist ->
  ABCIViewIE.next_program playlist = Raise StopIteration.
Proof.
  induction 1 as [|s playlist (t & Ht & Hother) _ IH]; cbn [ABCIViewIE.next_program].
  - reflexivity.
  - rewrite Ht. cbn [rbind]. now rewrite Hother.
Qed.

Lemma no_program_stop_iteration
      (h : Host) (url video_id webpage : string)
      (video_params title : json) (entries : list json) (w : World) :
  catchup_page h url video_id webpage video_params ->
  title_of video_params = Ok title ->
  getitem video_params "playlist" = Ok (JList entries) ->
  Forall (fun s => exists t, get s "type" = Ok t /\ eq_str t "program" = false) entries ->
  fst (ABCIViewIE._real_extract h url w) = Raise StopIteration.
Proof.
  intros (params_text & Hid & Hpage & Hre & Hjson) Htitle Hplaylist Hnone.
  unfold ABCIViewIE._real_extract.
  rewrite (bind_lift_ok _ _ _ _ Hid), bind_download, Hpage.
  rewrite (bind_lift_ok _ _ _ _ Hre), (bind_lift_ok _ _ _ _ Hjson).
  rewrite (bind_lift_ok _ _ _ _ Htitle).
  rewrite bind_lift, Hplaylist. cbn [rbind iter].
  now rewrite (next_program_none _ Hnone).
Qed.

(** C4, on the code — the playlist of this page holds an advertisement and
    no "program" entry: the extraction ends in a bare [StopIteration], raised
    before anything is signed or asked of the token endpoint. *)
Theorem programless_episode_stop_iteration :
  ABCIViewIE._real_extract Fixture.programless_episode Fixture.episode_url Fixture.w0
  = (Raise StopIteration,
     MkWorld 1514499187 [ WebpageRequest Fixture.episode_url "ZW0898A003S00" ]).
Proof. vm_compute. reflexivity. Qed.

(* ================================================================== *)
(** * Further properties of the extractors *)

(** ** What is asked of the network *)

Lemma quiet_ret {A} (a : A) : quiet (ret a).
Proof. now intros w. Qed.

Lemma quiet_raise {A} (e : exn) : quiet (@raise A e).
Proof. now intros w. Qed.

Lemma quiet_lift {A} (r : result A) : quiet (lift r).
Proof. now intros w. Qed.

Lemma quiet_bind {A B} (m : M A) (k : A -> M B) :
  quiet m -> (forall a, quiet (k a)) -> quiet (bind m k).
Proof.
  intros Hm Hk w. unfold bind. specialize (Hm w).
  destruct (m w) as [[a|e] w1]; simpl in Hm; subst w1; [apply Hk|reflexivity].
Qed.

Create HintDb quiet.
#[local] Hint Resolve quiet_ret quiet_raise quiet_lift : quiet.

Ltac quiet :=
  repeat first
    [ progress auto with quiet
    | apply quiet_bind; [|intro]
    | match goal with
      | |- quiet (match ?x with _ => _ end) => destruct x
      | |- quiet (if ?b then _ else _) => destruct b
      end ].

(** X1 — whatever an article page holds and however the extraction ends,
    [ABCIE._real_extract] asks the network for one thing only, the page
    itself: no second page, no manifest. *)
Theorem article_asks_once (h : Host) (url video_id : string) (w : World) :
  match_id h ABCIE._VALID_URL url = Ok video_id ->
  snd (ABCIE._real_extract h url w) = asked w [WebpageRequest url video_id].
Proof.
  intros Hid. unfold ABCIE._real_extract.
  rewrite (bind_lift_ok _ _ _ _ Hid), bind_download.
  destruct (download h url video_id) as [webpage|e]; [|reflexivity].
  match goal with
  | |- snd (?m ?w1) = _ => assert (Hq : quiet m) by quiet; apply Hq
  end.
Qed.

Lemma article_asks_once_witness :
  snd (ABCIE._real_extract Fixture.audio_article Fixture.article_url Fixture.w1)
  = asked Fixture.w1 [WebpageRequest Fixture.article_url "6880080"].
Proof.
  apply (article_asks_once Fixture.audio_article Fixture.article_url "6880080" Fixture.w1).
  reflexivity.
Defined.

(** X2 — when the title or the "program" entry of a configuration cannot be
    had, the extraction of an episode ends with that very error and has
    asked for the page only: nothing is signed and the token endpoint is not
    called. *)
Theorem no_program_no_token_request
        (h : Host) (url video_id webpage : string) (video_params : json)
        (e : exn) (w : World) :
  catchup_page h url video_id webpage video_params ->
  (_ <~ title_of video_params ;; program_of video_params) = Raise e ->
  ABCIViewIE._real_extract h url w = (Raise e, asked w [WebpageRequest url video_id]).
Proof.
  intros (params_text & Hid & Hpage & Hre & Hjson) Hfail.
  unfold ABCIViewIE._real_extract.
  rewrite (bind_lift_ok _ _ _ _ Hid), bind_download, Hpage.
  rewrite (bind_lift_ok _ _ _ _ Hre), (bind_lift_ok _ _ _ _ Hjson).
  rewrite bind_lift. fold (title_of video_params).
  destruct (title_of video_params) as [title|e'].
  - rewrite bind_lift. fold (program_of video_params).
    cbn [rbind] in Hfail. now rewrite Hfail.
  - cbn [rbind] in Hfail. now injection Hfail as ->.
Qed.

Lemma no_program_no_token_request_witness :
  ABCIViewIE._real_extract Fixture.programless_episode Fixture.episode_url Fixture.w1
  = (Raise StopIteration,
     asked Fixture.w1 [WebpageRequest Fixture.episode_url "ZW0898A003S00"]).
Proof.
  apply (no_program_no_token_request Fixture.programless_episode Fixture.episode_url
           "ZW0898A003S00" Fixture.episode_page
           (Fixture.episode_params [ ("episodeHouseNumber", JStr "ZW0898A003S00") ]
              [ Fixture.preroll ])).
  - exists "{...}". split; [|split; [|split]]; reflexivity.
  - reflexivity.
Defined.

(** X3 — when the token endpoint turns the request down, the extraction
    ends with the error of that request and has asked for the page and the
    token only: no manifest is fetched without a token. *)
Theorem refused_token_no_manifest
        (h : Host) (url video_id webpage : string)
        (video_params title stream : json) (e : exn) (w : World) :
  catchup_page h url video_id webpage video_params ->
  title_of video_params = Ok title ->
  program_of video_params = Ok stream ->
  (let path := ABCIViewIE.sign_path h (clock w) (field video_params "episodeHouseNumber") in
   download h (ABCIViewIE.token_url path (ABCIViewIE.signature path)) video_id = Raise e) ->
  let path := ABCIViewIE.sign_path h (clock w) (field video_params "episodeHouseNumber") in
  ABCIViewIE._real_extract h url w
  = (Raise e,
     asked w [ WebpageRequest url video_id;
               WebpageRequest (ABCIViewIE.token_url path (ABCIViewIE.signature path))
                 video_id ]).
Proof.
  intros (params_text & Hid & Hpage & Hre & Hjson) Htitle Hstream Htoken path.
  unfold ABCIViewIE._real_extract.
  rewrite (bind_lift_ok _ _ _ _ Hid), bind_download, Hpage.
  rewrite (bind_lift_ok _ _ _ _ Hre), (bind_lift_ok _ _ _ _ Hjson).
  rewrite (bind_lift_ok _ _ _ _ Htitle), (bind_lift_ok _ _ _ _ Hstream).
  rewrite (bind_lift_ok _ _ _ _ (title_of_dict _ _ Htitle "episodeHouseNumber")).
  rewrite bind_time. cbn [asked clock]. cbv zeta in Htoken |- *. fold path in Htoken |- *.
  rewrite bind_download, Htoken. now rewrite asked_asked.
Qed.

Lemma refused_token_no_manifest_witness :
  fst (ABCIViewIE._real_extract Scenario.geo_blocked_episode Fixture.episode_url Fixture.w0)
  = Raise Scenario.refused
  /\ List.length
       (requests (snd (ABCIViewIE._real_extract Scenario.geo_blocked_episode
                         Fixture.episode_url Fixture.w0))) = 2%nat.
Proof.
  rewrite (refused_token_no_manifest Scenario.geo_blocked_episode Fixture.episode_url
             "ZW0898A003S00" Fixture.episode_page
             (Fixture.episode_params [ ("episodeHouseNumber", JStr "ZW0898A003S00") ]
                [ Fixture.preroll; Fixture.program_entry Fixture.both_tiers ])
             (JStr "Series 5 Ep 3") (Fixture.program_entry Fixture.both_tiers)
             Scenario.refused Fixture.w0).
  - split; reflexivity.
  - exists "{...}". split; [|split; [|split]]; reflexivity.
  - reflexivity.
  - reflexivity.
  - reflexivity.
Defined.

Lemma quiet_time : quiet time.
Proof. now intros w. Qed.
#[local] Hint Resolve quiet_time : quiet.

Lemma bind_ok {A B} (m : M A) (k : A -> M B) (w w1 : World) (a : A) :
  m w = (Ok a, w1) -> bind m k w = k a w1.
Proof. unfold bind. now intros ->. Qed.

Lemma fst_bind_download_inv {B} (h : Host) (url video_id : string)
      (k : string -> M B) (w : World) (b : B) :
  fst (bind (_download_webpage h url video_id) k w) = Ok b ->
  exists page,
    download h url video_id = Ok page
    /\ fst (k page (asked w [WebpageRequest url video_id])) = Ok b.
Proof.
  rewrite bind_download.
  destruct (download h url video_id) as [page|e]; [eauto|discriminate].
Qed.

(** The requests of the loop: at most one for each tier, each for the URL of
    a tier with the token added, and none only if [formats] is left alone. *)
Lemma tiers_loop_log (h : Host) (stream : json) (token video_id : string)
      (sds : list string) :
  forall formats w,
  exists result ms,
    ABCIViewIE.tiers_loop h stream token video_id sds formats w = (Ok result, asked w ms)
    /\ (List.length ms <= List.length sds)%nat
    /\ Forall (fun r => exists sd u,
                   In sd sds /\ tier_url stream sd = Some u
                   /\ r = ManifestRequest (update_url_query h u [("hdnea", token)]) video_id)
              ms
    /\ (ms = [] -> result = formats).
Proof.
  induction sds as [|sd rest IH]; intros formats w.
  - exists formats, []. cbn [ABCIViewIE.tiers_loop]. unfold ret. rewrite asked_nil.
    repeat split; auto.
  - rewrite tiers_loop_step.
    destruct (tier_url stream sd) as [u|] eqn:Hu; cbv zeta.
    + set (r := ManifestRequest (update_url_query h u [("hdnea", token)]) video_id).
      assert (Hr : exists sd' u',
                 In sd' (sd :: rest) /\ tier_url stream sd' = Some u'
                 /\ r = ManifestRequest (update_url_query h u' [("hdnea", token)]) video_id)
        by (exists sd, u; repeat split; [now left|exact Hu]).
      destruct (extract_m3u8_formats h _ video_id "mp4" "m3u8_native" "hls") as [|f fs].
      * destruct (IH (Some []) (asked w [r])) as (result & ms & Hrun & Hlen & Hall & Hnil).
        exists result, (r :: ms). rewrite Hrun, asked_asked.
        repeat split; [simpl; lia| |discriminate].
        constructor; [exact Hr|].
        eapply Forall_impl; [|exact Hall].
        intros r' (sd' & u' & Hin & Hu' & ->). exists sd', u'.
        repeat split; [now right|exact Hu'].
      * exists (Some (f :: fs)), [r].
        repeat split; [simpl; lia| |discriminate].
        constructor; [exact Hr|constructor].
    + destruct (IH formats w) as (result & ms & Hrun & Hlen & Hall & Hnil).
      exists result, ms. rewrite Hrun.
      repeat split; [simpl; lia| |exact Hnil].
      eapply Forall_impl; [|exact Hall].
      intros r' (sd' & u' & Hin & Hu' & ->). exists sd', u'.
      repeat split; [now right|exact Hu'].
Qed.

(** Everything a successful extraction of an episode went through. *)
Lemma episode_inversion
      (h : Host) (url video_id webpage : string) (video_params : json)
      (w : World) (info : Episode.t) :
  catchup_page h url video_id webpage video_params ->
  fst (ABCIViewIE._real_extract h url w) = Ok info ->
  let path := ABCIViewIE.sign_path h (clock w) (field video_params "episodeHouseNumber") in
  exists title stream token w1 parsed sorted captions src_vtt timestamp series_id,
    title_of video_params = Ok title
    /\ program_of video_params = Ok stream
    /\ download h (ABCIViewIE.token_url path (ABCIViewIE.signature path)) video_id = Ok token
    /\ fst (ABCIViewIE.tiers_loop h stream token video_id ["sd"; "sd-low"] None w1)
       = Ok (Some parsed)
    /\ sort_formats h parsed = Ok sorted
    /\ get_default stream "captions" (JObj []) = Ok captions
    /\ get captions "src-vtt" = Ok src_vtt
    /\ parse_iso8601 h (field video_params "pubDate") " " = Ok timestamp
    /\ py_or (field video_params "seriesHouseNumber") (Ok (JStr (slice_to 7 video_id)))
       = Ok series_id
    /\ info = Episode.Make video_id title
                (html_search_meta h ["og:description"; "twitter:description"] webpage)
                (html_search_meta h ["og:image"; "twitter:image:src"] webpage)
                (int_or_none (field video_params "eventDuration")) timestamp
                (field video_params "seriesTitle") series_id
                (int_or_none (of_option (html_search_meta h ["episodeNumber"] webpage)))
                (html_search_meta h ["episode_title"] webpage)
                (field video_params "channel") sorted
                (ABCIViewIE.subtitles_of src_vtt).
Proof.
  intros (params_text & Hid & Hpage & Hre & Hjson) H path.
  unfold ABCIViewIE._real_extract in H.
  rewrite (bind_lift_ok _ _ _ _ Hid), bind_download, Hpage in H.
  rewrite (bind_lift_ok _ _ _ _ Hre), (bind_lift_ok _ _ _ _ Hjson) in H.
  invert_lift H. rename a into title, Ha into Htitle.
  pose proof (title_of_dict _ _ Htitle) as Hget.
  invert_lift H. rename a into stream, Ha into Hstream.
  rewrite (bind_lift_ok _ _ _ _ (Hget "episodeHouseNumber")) in H.
  rewrite bind_time in H. cbn [asked clock] in H. cbv zeta in H. fold path in H.
  apply fst_bind_download_inv in H. destruct H as (token & Htoken & H).
  apply fst_bind_inv in H. destruct H as (formats & w2 & Hloop & H).
  destruct formats as [parsed|]; [|discriminate].
  invert_lift H. rename a into sorted, Ha into Hsorted.
  invert_lift H. rename a into captions, Ha into Hcaptions.
  invert_lift H. rename a into src_vtt, Ha into Hvtt.
  rewrite (bind_lift_ok _ _ _ _ (Hget "eventDuration")) in H.
  rewrite (bind_lift_ok _ _ _ _ (Hget "pubDate")) in H.
  invert_lift H. rename a into timestamp, Ha into Htimestamp.
  rewrite (bind_lift_ok _ _ _ _ (Hget "seriesTitle")) in H.
  invert_lift H. rename a into series_id, Ha into Hseries.
  rewrite (Hget "seriesHouseNumber") in Hseries. cbn [rbind] in Hseries.
  rewrite (bind_lift_ok _ _ _ _ (Hget "channel")) in H.
  injection H as <-.
  match type of Hloop with
  | ABCIViewIE.tiers_loop _ _ _ _ _ _ ?w0 = _ =>
      exists title, stream, token, w0, parsed, sorted, captions, src_vtt, timestamp, series_id
  end.
  rewrite Hloop. repeat split; assumption.
Qed.

(** X4 — a successful extraction of an episode has asked, in this order,
    for the page, for the token, and for one or two manifests; each manifest
    URL is the URL of a tier ("sd" or "sd-low") of the programme entry with
    the [hdnea] token added. *)
Theorem episode_requests
        (h : Host) (url video_id webpage : string) (video_params stream : json)
        (token : string) (w : World) (info : Episode.t) :
  catchup_page h url video_id webpage video_params ->
  program_of video_params = Ok stream ->
  (let path := ABCIViewIE.sign_path h (clock w) (field video_params "episodeHouseNumber") in
   download h (ABCIViewIE.token_url path (ABCIViewIE.signature path)) video_id = Ok token) ->
  fst (ABCIViewIE._real_extract h url w) = Ok info ->
  let path := ABCIViewIE.sign_path h (clock w) (field video_params "episodeHouseNumber") in
  exists manifests,
    requests (snd (ABCIViewIE._real_extract h url w))
    = (requests w
       ++ [ WebpageRequest url video_id;
            WebpageRequest (ABCIViewIE.token_url path (ABCIViewIE.signature path)) video_id ]
       ++ manifests)%list
    /\ (1 <= List.length manifests <= 2)%nat
    /\ Forall (fun r => exists sd u,
                   In sd ["sd"; "sd-low"] /\ tier_url stream sd = Some u
                   /\ r = ManifestRequest (update_url_query h u [("hdnea", token)]) video_id)
              manifests.
Proof.
  intros Hpage Hstream Htoken Hrun path.
  destruct (episode_inversion _ _ _ _ _ _ _ Hpage Hrun)
    as (title & stream' & token' & _ & _ & _ & _ & _ & _ & _ & Htitle & Hstream' & _).
  destruct Hpage as (params_text & Hid & Hpage & Hre & Hjson).
  revert Hrun. unfold ABCIViewIE._real_extract.
  rewrite (bind_lift_ok _ _ _ _ Hid), bind_download, Hpage.
  rewrite (bind_lift_ok _ _ _ _ Hre), (bind_lift_ok _ _ _ _ Hjson).
  rewrite (bind_lift_ok _ _ _ _ Htitle), (bind_lift_ok _ _ _ _ Hstream).
  rewrite (bind_lift_ok _ _ _ _ (title_of_dict _ _ Htitle "episodeHouseNumber")).
  rewrite bind_time. cbn [asked clock]. cbv zeta in Htoken |- *. fold path in Htoken |- *.
  rewrite bind_download, Htoken, asked_asked.
  match goal with
  | |- context [bind (ABCIViewIE.tiers_loop _ _ _ _ ?sds ?fo) _ ?w0] =>
      destruct (tiers_loop_log h stream token video_id sds fo w0)
        as (result & ms & Hloop & Hlen & Hall & Hnil)
  end.
  rewrite (bind_ok _ _ _ _ _ Hloop).
  destruct result as [parsed|]; [|discriminate].
  intros _.
  match goal with
  | |- context [snd (?m ?w1)] => assert (Hq : quiet m) by quiet; rewrite (Hq w1)
  end.
  exists ms. split; [|split].
  - rewrite asked_asked. reflexivity.
  - split; [|exact Hlen].
    destruct ms; [specialize (Hnil eq_refl); discriminate|simpl; lia].
  - exact Hall.
Qed.

Lemma episode_requests_witness :
  exists manifests,
    requests (snd (ABCIViewIE._real_extract Fixture.full_episode Fixture.episode_url
                     Fixture.w0))
    = ([ WebpageRequest Fixture.episode_url "ZW0898A003S00";
         WebpageRequest
           (ABCIViewIE.token_url
              (ABCIViewIE.sign_path Fixture.full_episode 1514499187 (JStr "ZW0898A003S00"))
              (ABCIViewIE.signature
                 (ABCIViewIE.sign_path Fixture.full_episode 1514499187
                    (JStr "ZW0898A003S00"))))
           "ZW0898A003S00" ] ++ manifests)%list
    /\ (1 <= List.length manifests <= 2)%nat.
Proof.
  destruct (episode_requests Fixture.full_episode Fixture.episode_url "ZW0898A003S00"
              Fixture.episode_page
              (Fixture.episode_params [ ("episodeHouseNumber", JStr "ZW0898A003S00") ]
                 [ Fixture.preroll; Fixture.program_entry Fixture.both_tiers ])
              (Fixture.program_entry Fixture.both_tiers)
              Fixture.token Fixture.w0 Fixture.full_episode_info)
    as (manifests & Hlog & Hlen & _).
  - exists "{...}". split; [|split; [|split]]; reflexivity.
  - reflexivity.
  - reflexivity.
  - vm_compute. reflexivity.
  - exists manifests. split; [exact Hlog|exact Hlen].
Defined.

(** ** What the record of an episode says *)

Lemma title_of_value (video_params title : json) :
  title_of video_params = Ok title ->
  title = if truthy (field video_params "title")
          then field video_params "title"
          else field video_params "seriesTitle".
Proof.
  intros Htitle. pose proof (title_of_dict _ _ Htitle "title") as Hget.
  unfold title_of in Htitle. rewrite Hget in Htitle. cbn [rbind] in Htitle.
  unfold py_or in Htitle.
  destruct (truthy (field video_params "title")); [congruence|].
  now destruct (getitem_dict _ _ _ Htitle) as [-> _].
Qed.

(** X5 — the descriptive fields of a returned episode record, read off the
    configuration and the page: the title is [title], or [seriesTitle] when
    [title] is missing or empty; the series id is [seriesHouseNumber], or the
    first seven characters of the video id when that is missing or empty;
    series, uploader and duration come from [seriesTitle], [channel] and
    [eventDuration]; a key that is absent gives [None]. *)
Theorem episode_metadata
        (h : Host) (url video_id webpage : string) (video_params : json)
        (w : World) (info : Episode.t) :
  catchup_page h url video_id webpage video_params ->
  fst (ABCIViewIE._real_extract h url w) = Ok info ->
  Episode.id info = video_id
  /\ Episode.title info
     = (if truthy (field video_params "title")
        then field video_params "title"
        else field video_params "seriesTitle")
  /\ Episode.series info = field video_params "seriesTitle"
  /\ Episode.series_id info
     = (if truthy (field video_params "seriesHouseNumber")
        then field video_params "seriesHouseNumber"
        else JStr (slice_to 7 video_id))
  /\ Episode.uploader_id info = field video_params "channel"
  /\ Episode.duration info = int_or_none (field video_params "eventDuration")
  /\ parse_iso8601 h (field video_params "pubDate") " " = Ok (Episode.timestamp info)
  /\ Episode.description info
     = html_search_meta h ["og:description"; "twitter:description"] webpage
  /\ Episode.thumbnail info
     = html_search_meta h ["og:image"; "twitter:image:src"] webpage
  /\ Episode.episode info = html_search_meta h ["episode_title"] webpage.
Proof.
  intros Hpage Hrun.
  destruct (episode_inversion _ _ _ _ _ _ _ Hpage Hrun)
    as (title & stream & token & w1 & parsed & sorted & captions & src_vtt & timestamp
        & series_id & Htitle & _ & _ & _ & _ & _ & _ & Htimestamp & Hseries & ->).
  cbn [Episode.id Episode.title Episode.series Episode.series_id Episode.uploader_id
       Episode.duration Episode.timestamp Episode.description Episode.thumbnail
       Episode.episode].
  repeat split; try assumption.
  - exact (title_of_value _ _ Htitle).
  - unfold py_or in Hseries.
    destruct (truthy (field video_params "seriesHouseNumber")); congruence.
Qed.

Lemma episode_metadata_witness :
  Episode.title Fixture.full_episode_info = JStr "Series 5 Ep 3"
  /\ Episode.series_id Fixture.full_episode_info = JStr "ZW0898A"
  /\ Episode.uploader_id Fixture.full_episode_info = JStr "abc1".
Proof.
  destruct (episode_metadata Fixture.full_episode Fixture.episode_url "ZW0898A003S00"
              Fixture.episode_page
              (Fixture.episode_params [ ("episodeHouseNumber", JStr "ZW0898A003S00") ]
                 [ Fixture.preroll; Fixture.program_entry Fixture.both_tiers ])
              Fixture.w0 Fixture.full_episode_info)
    as (_ & Htitle & _ & Hseries & Huploader & _).
  - exists "{...}". split; [|split; [|split]]; reflexivity.
  - vm_compute. reflexivity.
  - split; [exact Htitle|split; [exact Hseries|exact Huploader]].
Defined.

(** X6 — a returned episode record has one subtitle track, English, in VTT,
    at the URL [captions.src-vtt] of the programme entry, exactly when that
    value is there and is not empty; otherwise it has no subtitles. *)
Theorem episode_subtitles
        (h : Host) (url video_id webpage : string) (video_params stream : json)
        (w : World) (info : Episode.t) :
  catchup_page h url video_id webpage video_params ->
  program_of video_params = Ok stream ->
  fst (ABCIViewIE._real_extract h url w) = Ok info ->
  let src_vtt := field (field stream "captions") "src-vtt" in
  Episode.subtitles info
  = if truthy src_vtt then [ ("en", [ Subtitle.Make src_vtt "vtt" ]) ] else [].
Proof.
  intros Hpage Hstream Hrun src_vtt.
  destruct (episode_inversion _ _ _ _ _ _ _ Hpage Hrun)
    as (title & stream' & token & w1 & parsed & sorted & captions & vtt & timestamp
        & series_id & _ & Hstream' & _ & _ & _ & Hcaptions & Hvtt & _ & _ & ->).
  rewrite Hstream in Hstream'. injection Hstream' as <-.
  cbn [Episode.subtitles]. unfold ABCIViewIE.subtitles_of.
  assert (Heq : vtt = src_vtt); [|now rewrite Heq].
  subst src_vtt. unfold get_default in Hcaptions.
  destruct stream as [| | | | | |items]; try discriminate. cbn [field].
  destruct (lookup "captions" items) as [c|]; injection Hcaptions as <-.
  - unfold get, get_default in Hvtt. destruct c as [| | | | | |citems]; try discriminate.
    cbn [field]. now destruct (lookup "src-vtt" citems); injection Hvtt as <-.
  - now injection Hvtt as <-.
Qed.

Lemma episode_subtitles_witness :
  Episode.subtitles Fixture.full_episode_info
  = [ ("en", [ Subtitle.Make (JStr "http://iview.abc.net.au/cc/ZW0898A003S00.vtt") "vtt" ]) ].
Proof.
  apply (episode_subtitles Fixture.full_episode Fixture.episode_url "ZW0898A003S00"
           Fixture.episode_page
           (Fixture.episode_params [ ("episodeHouseNumber", JStr "ZW0898A003S00") ]
              [ Fixture.preroll; Fixture.program_entry Fixture.both_tiers ])
           (Fixture.program_entry Fixture.both_tiers)
           Fixture.w0 Fixture.full_episode_info).
  - exists "{...}". split; [|split; [|split]]; reflexivity.
  - reflexivity.
  - vm_compute. reflexivity.
Defined.

(** ** Articles: elements without a URL, the record, the banner *)

Lemma comprehension_first_error {A B} (f : A -> result B)
      (before after : list A) (a : A) (e : exn) :
  Forall (fun x => exists b, f x = Ok b) before ->
  f a = Raise e ->
  comprehension f (before ++ a :: after)%list = Raise e.
Proof.
  intros Hbefore Ha.
  induction Hbefore as [|x before [b Hx] _ IH]; cbn [app comprehension].
  - now rewrite Ha.
  - rewrite Hx. cbn [rbind]. now rewrite IH.
Qed.

(** X8 — the first element of an article's data that has no [url] (or is
    not a dict at all) ends the extraction with the error of that lookup,
    [KeyError('url')] or [TypeError], whatever the type of the block and
    whatever the elements before and after it hold; no record and no playlist
    is returned. *)
Theorem element_without_url
        (h : Host) (url video_id webpage : string) (mobj : match_object)
        (data : json) (before after : list json) (url_info : json)
        (e : exn) (w : World) :
  article_page h url video_id webpage ->
  inline_block h video_id webpage mobj data ->
  as_list data = (before ++ url_info :: after)%list ->
  Forall (fun x => exists u, getitem x "url" = Ok u) before ->
  getitem url_info "url" = Raise e ->
  fst (ABCIE._real_extract h url w) = Raise e
  /\ (e = KeyError "url" \/ e = TypeError).
Proof.
  intros Hpage [Hre Hjson] Hsplit Hbefore Hbad.
  split; [|exact (getitem_raises _ _ _ Hbad)].
  article_start Hpage. rewrite Hre, (bind_lift_ok _ _ _ _ Hjson).
  fold (as_list data). rewrite Hsplit.
  destruct (mobj "type" =? "YouTube")%string.
  - rewrite bind_lift, comprehension_first_error with (e := e); [reflexivity| |].
    + eapply Forall_impl; [|exact Hbefore]. intros x [u Hu]. rewrite Hu. now eexists.
    + now rewrite Hbad.
  - rewrite bind_lift, comprehension_first_error with (e := e); [reflexivity| |].
    + eapply Forall_impl; [|exact Hbefore]. intros x [u Hu].
      rewrite (format_of_expected _ _ _ Hu). now eexists.
    + unfold ABCIE.format_of. now rewrite Hbad.
Qed.

Lemma element_without_url_witness :
  fst (ABCIE._real_extract Scenario.gapped_article Fixture.article_url Fixture.w0)
  = Raise (KeyError "url").
Proof.
  apply (element_without_url Scenario.gapped_article Fixture.article_url "5868334"
           Fixture.video_page (Fixture.group "Video" "[...]") Scenario.gapped_data
           [ JObj [ ("url", JStr "http://mpegmedia.abc.net.au/news/video/201411/ebola_1000k.mp4") ] ]
           [ JStr "http://mpegmedia.abc.net.au/news/video/201411/ebola_256k.mp4" ]
           (JObj [ ("codec", JStr "AVC"); ("width", JStr "512") ])
           (KeyError "url") Fixture.w0).
  - split; reflexivity.
  - split; reflexivity.
  - reflexivity.
  - repeat constructor. eexists. reflexivity.
  - reflexivity.
Defined.

(** X9 — the record returned for a video or audio article has the id taken
    from the URL and the Open Graph title, description and thumbnail of the
    page; the title must be there for a record to be returned, description
    and thumbnail may be missing. *)
Theorem article_record
        (h : Host) (url video_id webpage : string) (w : World) (info : Article.t) :
  article_page h url video_id webpage ->
  fst (ABCIE._real_extract h url w) = Ok (info_dict info) ->
  Article.id info = video_id
  /\ og_search_title h webpage = Ok (Article.title info)
  /\ Article.description info = og_search_description h webpage
  /\ Article.thumbnail info = og_search_thumbnail h webpage.
Proof.
  intros Hpage. article_start Hpage.
  destruct (re_search h ABCIE.inline_data_re webpage) as [mobj|].
  - intros H. invert_lift H.
    destruct (mobj "type" =? "YouTube")%string.
    + invert_lift H. discriminate.
    + invert_lift H. invert_lift H. invert_lift H. injection H as <-.
      repeat split. exact Ha2.
  - destruct (truthy _); discriminate.
Qed.

Lemma article_record_witness :
  Article.id Fixture.video_info = "5868334"
  /\ og_search_title Fixture.video_article Fixture.video_page
     = Ok (Article.title Fixture.video_info).
Proof.
  destruct (article_record Fixture.video_article Fixture.article_url "5868334"
              Fixture.video_page Fixture.w0 Fixture.video_info) as (Hid & Htitle & _).
  - split; reflexivity.
  - reflexivity.
  - split; [exact Hid|exact Htitle].
Defined.

(** X10 — the "expired" notice is looked for only when no inline data block
    is found: on a page that has a data block, whatever the search for the
    notice would give, the extraction goes the same way. *)
Theorem banner_ignored_with_data
        (h : Host) (url video_id webpage : string) (mobj : match_object)
        (f : string -> string -> string -> option string) (w : World) :
  article_page h url video_id webpage ->
  re_search h ABCIE.inline_data_re webpage = Some mobj ->
  ABCIE._real_extract (with_html_search_regex h f) url w = ABCIE._real_extract h url w.
Proof.
  intros [Hid Hget] Hre.
  unfold ABCIE._real_extract, _download_webpage, bind, lift, ask, with_html_search_regex.
  cbn [match_id download re_search]. rewrite Hid, Hget, Hre. reflexivity.
Qed.

Lemma banner_ignored_with_data_witness :
  ABCIE._real_extract
    (with_html_search_regex Fixture.video_article
       (fun _ _ _ => Some "This video has expired."))
    Fixture.article_url Fixture.w0
  = ABCIE._real_extract Fixture.video_article Fixture.article_url Fixture.w0.
Proof.
  apply (banner_ignored_with_data Fixture.video_article Fixture.article_url "5868334"
           Fixture.video_page (Fixture.group "Video" "{...}")).
  - split; reflexivity.
  - reflexivity.
Defined.

(** ** The programme entry *)

(** X11 — the programme entry is the first element of the playlist whose
    [type] is "program"; the elements after it are not looked at, so they may
    be anything, but an element before it that is not a dict makes the search
    raise. *)
Theorem program_entry_is_first_match
        (items : list (string * json)) (before after : list json) (s : json) :
  lookup "playlist" items = Some (JList (before ++ s :: after)%list) ->
  Forall (fun s' => exists t, get s' "type" = Ok t /\ eq_str t "program" = false) before ->
  (eq_str (field s "type") "program" = true -> program_of (JObj items) = Ok s)
  /\ (forall e, get s "type" = Raise e -> program_of (JObj items) = Raise e).
Proof.
  intros Hplaylist Hbefore. unfold program_of, getitem. rewrite Hplaylist.
  cbn [rbind iter]. split.
  - intros Hprog. apply next_program_first; [exact Hbefore|].
    exists (field s "type"). split; [|exact Hprog].
    destruct s; try discriminate. unfold get, get_default, field.
    now destruct (lookup "type" items0).
  - intros e He. clear Hplaylist.
    induction Hbefore as [|s' before (t & Ht & Hother) _ IH];
      cbn [app ABCIViewIE.next_program].
    + now rewrite He.
    + rewrite Ht. cbn [rbind]. rewrite Hother. exact IH.
Qed.

Lemma program_entry_is_first_match_witness :
  program_of (Fixture.episode_params [] Scenario.ragged_playlist)
  = Ok (Fixture.program_entry Fixture.both_tiers).
Proof.
  apply (program_entry_is_first_match
           [ ("title", JStr "Series 5 Ep 3");
             ("seriesTitle", JStr "Call The Midwife");
             ("channel", JStr "abc1");
             ("playlist", JList Scenario.ragged_playlist) ]
           [ Fixture.preroll ] [ JNull; JStr "program" ]
           (Fixture.program_entry Fixture.both_tiers)).
  - reflexivity.
  - repeat constructor. eexists. split; reflexivity.
  - reflexivity.
Defined.

(** ** Text *)

Lemma text_app_nil (s : string) : s ++ EmptyString = s.
Proof. induction s as [|c s IH]; simpl; [reflexivity|now rewrite IH]. Qed.

Lemma text_app_assoc (a b c : string) : (a ++ b) ++ c = a ++ (b ++ c).
Proof. induction a as [|x a IH]; simpl; [reflexivity|now rewrite IH]. Qed.

Lemma text_app_length (a b : string) :
  String.length (a ++ b) = (String.length a + String.length b)%nat.
Proof. induction a as [|x a IH]; simpl; [reflexivity|now rewrite IH]. Qed.

Lemma text_app_inv_tail (a b s : string) : a ++ s = b ++ s -> a = b.
Proof.
  revert b. induction a as [|x a IH]; intros [|y b] H; simpl in H.
  - reflexivity.
  - apply (f_equal String.length) in H. simpl in H. rewrite text_app_length in H. lia.
  - apply (f_equal String.length) in H. simpl in H. rewrite text_app_length in H. lia.
  - injection H as -> H. now rewrite (IH b H).
Qed.

Lemma join_cons (x : string) (l : list string) :
  String.concat EmptyString (x :: l) = x ++ String.concat EmptyString l.
Proof.
  destruct l; cbn [String.concat]; [now rewrite text_app_nil|reflexivity].
Qed.

Lemma chars_from_right_join (s : string) :
  fst (chars_from_right s) ++ String.concat EmptyString (snd (chars_from_right s)) = s.
Proof.
  induction s as [|c s IH]; [reflexivity|].
  cbn [chars_from_right]. destruct (chars_from_right s) as [pending cs].
  cbn [fst snd] in IH. destruct (is_continuation c); cbn [fst snd].
  - simpl. now rewrite IH.
  - rewrite join_cons. simpl. now rewrite IH.
Qed.

Lemma chars_join (s : string) : String.concat EmptyString (chars s) = s.
Proof.
  pose proof (chars_from_right_join s) as H. unfold chars.
  destruct (chars_from_right s) as [pending cs]. cbn [fst snd] in H.
  destruct pending; [exact H|]. now rewrite join_cons.
Qed.

Lemma join_app (l1 l2 : list string) :
  String.concat EmptyString (l1 ++ l2)%list
  = String.concat EmptyString l1 ++ String.concat EmptyString l2.
Proof.
  induction l1 as [|x l1 IH]; [reflexivity|].
  change ((x :: l1) ++ l2)%list with (x :: (l1 ++ l2))%list.
  now rewrite !join_cons, IH, text_app_assoc.
Qed.

Lemma ascii_chars (s : string) :
  all_chars (fun c => negb (is_continuation c)) s = true ->
  chars_from_right s
  = (EmptyString, map (fun c => String c EmptyString) (list_ascii_of_string s)).
Proof.
  induction s as [|c s IH]; [reflexivity|].
  cbn [all_chars chars_from_right list_ascii_of_string map].
  intros H. apply andb_prop in H. destruct H as [Hc Hs].
  rewrite (IH Hs). apply negb_true_iff in Hc. now rewrite Hc.
Qed.

Lemma ascii_slice_length (n : nat) (s : string) :
  String.length
    (String.concat EmptyString
       (firstn n (map (fun c => String c EmptyString) (list_ascii_of_string s))))
  = Nat.min n (String.length s).
Proof.
  revert n. induction s as [|c s IH]; intros [|n]; try reflexivity.
  cbn [list_ascii_of_string map firstn]. rewrite join_cons. simpl. now rewrite IH.
Qed.

(** X12 — the slice [video_id[:7]] that stands in for a missing series id:
    the characters of a text put together again give the text, a slice is a
    prefix of the text and is the whole text when the text has no more
    characters than asked for, and for an ASCII text it has [min n (len s)]
    characters. *)
Theorem slice_is_prefix (n : nat) (s : string) :
  String.concat EmptyString (chars s) = s
  /\ (exists rest, s = slice_to n s ++ rest)
  /\ ((List.length (chars s) <= n)%nat -> slice_to n s = s)
  /\ (all_chars (fun c => negb (is_continuation c)) s = true ->
      String.length (slice_to n s) = Nat.min n (String.length s)).
Proof.
  split; [apply chars_join|]. split; [|split].
  - exists (String.concat EmptyString (skipn n (chars s))).
    unfold slice_to. now rewrite <- join_app, firstn_skipn, chars_join.
  - intros Hlen. unfold slice_to. now rewrite firstn_all2, chars_join.
  - intros Hascii. unfold slice_to, chars. rewrite (ascii_chars _ Hascii).
    apply ascii_slice_length.
Qed.

(** ** The signing path and the time *)

Lemma str_of_int_inj (a b : Z) : str_of_int a = str_of_int b -> a = b.
Proof.
  unfold str_of_int. intros H.
  assert (Hnn : forall z, Z.to_int z <> Decimal.Pos Decimal.Nil
                          /\ Z.to_int z <> Decimal.Neg Decimal.Nil).
  { intros [|p|p]; simpl; split; try discriminate;
      intros [= Hp]; now apply (DecimalPos.Unsigned.to_uint_nonnil p). }
  assert (Hparse : forall z, NilZero.int_of_string (NilZero.string_of_int (Z.to_int z))
                             = Some (Z.to_int z))
    by (intros z; apply NilZero.isi; apply Hnn).
  pose proof (Hparse a) as Ha. rewrite H, Hparse in Ha. injection Ha as Ha.
  now apply DecimalZ.to_int_inj.
Qed.

(** X13 — for one house number, the signing path tells the second it was
    made in: calls whose clocks read different seconds sign different
    paths. *)
Theorem sign_path_tells_the_time (h : Host) (ts ts' : Z) (house_number : json) :
  ts <> ts' ->
  ABCIViewIE.sign_path h ts house_number <> ABCIViewIE.sign_path h ts' house_number.
Proof.
  intros Hts H. apply Hts. unfold ABCIViewIE.sign_path in H. simpl in H.
  repeat match type of H with String _ _ = String _ _ => injection H as H end.
  apply text_app_inv_tail in H. now apply str_of_int_inj.
Qed.

Lemma sign_path_tells_the_time_witness :
  ABCIViewIE.sign_path Fixture.full_episode 1514499187 (JStr "ZW0898A003S00")
  <> ABCIViewIE.sign_path Fixture.full_episode 1514585587 (JStr "ZW0898A003S00").
Proof.
  apply (sign_path_tells_the_time Fixture.full_episode 1514499187 1514585587
           (JStr "ZW0898A003S00")).
  discriminate.
Defined.

Lemma slice_is_prefix_witness :
  String.length (slice_to 7 "ZW0898A003S00") = 7%nat.
Proof.
  destruct (slice_is_prefix 7 "ZW0898A003S00") as (_ & _ & _ & Hlen).
  rewrite Hlen; reflexivity.
Defined.

(** ** The regular expressions *)

Lemma strip_app (l rest : string) : Re.strip l (l ++ rest) = Some rest.
Proof.
  induction l as [|c l IH]; simpl; [now destruct rest|].
  now rewrite Ascii.eqb_refl.
Qed.

Lemma strip_inv (l s rest : string) : Re.strip l s = Some rest -> s = l ++ rest.
Proof.
  revert s. induction l as [|c l IH]; intros s; simpl.
  - destruct s; now intros [= ->].
  - destruct s as [|c' s]; [discriminate|].
    destruct (Ascii.eqb_spec c c') as [->|]; [|discriminate].
    intros H. now rewrite (IH _ H).
Qed.

Lemma consumed_app (body rest : string) : Re.consumed (body ++ rest) rest = body.
Proof.
  unfold Re.consumed. rewrite text_app_length.
  replace (String.length body + String.length rest - String.length rest)%nat
    with (String.length body) by lia.
  induction body as [|c body IH]; simpl.
  - now destruct rest.
  - now rewrite IH.
Qed.

Lemma class_plus_inv (p : ascii -> bool) (k : string -> option Re.captures)
      (s : string) (m : Re.captures) :
  Re.class_plus p k s = Some m ->
  exists body rest,
    s = body ++ rest /\ body <> EmptyString /\ all_chars p body = true /\ k rest = Some m.
Proof.
  induction s as [|c s IH]; simpl; [discriminate|].
  destruct (p c) eqn:Hc; [|discriminate].
  destruct (Re.class_plus p k s) as [m'|] eqn:Hs.
  - intros [= ->]. destruct (IH eq_refl) as (body & rest & -> & _ & Hall & Hk).
    exists (String c body), rest. simpl. rewrite Hc, Hall. repeat split; auto. discriminate.
  - intros Hk. exists (String c EmptyString), s. simpl. rewrite Hc.
    repeat split; auto. discriminate.
Qed.

(** A greedy set takes all it can when what follows cannot begin within
    the set. *)
Lemma class_plus_all (p : ascii -> bool) (k : string -> option Re.captures)
      (body rest : string) (m : Re.captures) :
  body <> EmptyString ->
  all_chars p body = true ->
  Re.class_plus p k rest = None ->
  k rest = Some m ->
  Re.class_plus p k (body ++ rest) = Some m.
Proof.
  intros Hne Hall Hrest Hk.
  induction body as [|c body IH]; [now elim Hne|].
  cbn [all_chars] in Hall. apply andb_prop in Hall. destruct Hall as [Hc Hall].
  change (String c body ++ rest) with (String c (body ++ rest)).
  unfold Re.class_plus; fold Re.class_plus. rewrite Hc.
  destruct body as [|c' body].
  - change (EmptyString ++ rest) with rest. now rewrite Hrest.
  - now rewrite IH; [|discriminate|exact Hall].
Qed.

Lemma search_inv (r : Re.regex) (s : string) (m : Re.captures) :
  Re.search r s = Some m ->
  exists before s', s = before ++ s' /\ Re.match_at r s' = Some m.
Proof.
  induction s as [|c s IH]; cbn [Re.search].
  - destruct (Re.match_at r EmptyString) eqn:H0; [|discriminate].
    intros [= ->]. now exists EmptyString, EmptyString.
  - destruct (Re.match_at r (String c s)) eqn:H0.
    + intros [= ->]. now exists EmptyString, (String c s).
    + intros H. destruct (IH H) as (before & s' & -> & Hm).
      now exists (String c before), s'.
Qed.

Lemma search_finds (r : Re.regex) (before s' : string) :
  Re.match_at r s' <> None -> Re.search r (before ++ s') <> None.
Proof.
  intros Hm. induction before as [|c before IH]; simpl.
  - destruct s'; cbn [Re.search]; destruct (Re.match_at r _); congruence.
  - cbn [Re.search]. now destruct (Re.match_at r (String c (before ++ s'))).
Qed.

Lemma inline_match_inv (s : string) (m : Re.captures) :
  Re.match_at Patterns.inline_data s = Some m ->
  exists type body after,
    s = "inline" ++ type ++ "Data.push(" ++ body ++ ");" ++ after
    /\ In type ["Video"; "Audio"; "YouTube"]
    /\ body <> EmptyString
    /\ all_chars (Re.none_of ")") body = true
    /\ m = [("json_data", body); ("type", type)].
Proof.
  unfold Re.match_at, Patterns.inline_data. cbn [Re.run].
  destruct (Re.strip "inline" s) as [r1|] eqn:H1; [|discriminate].
  apply strip_inv in H1. subst s.
  assert (Htail : forall type r2,
             r1 = type ++ r2 ->
             match Re.strip "Data.push(" r2 with
             | Some rest =>
                 Re.class_plus (Re.none_of ")")
                   (fun rest0 =>
                      match Re.strip ");" rest0 with
                      | Some _ =>
                          Some [("json_data", Re.consumed rest rest0);
                                ("type", Re.consumed r1 r2)]
                      | None => None
                      end) rest
             | None => None
             end = Some m ->
             exists body after,
               r1 = type ++ "Data.push(" ++ body ++ ");" ++ after
               /\ body <> EmptyString
               /\ all_chars (Re.none_of ")") body = true
               /\ m = [("json_data", body); ("type", type)]).
  { intros type r2 -> H.
    destruct (Re.strip "Data.push(" r2) as [r3|] eqn:H3; [|discriminate].
    apply strip_inv in H3. subst r2.
    apply class_plus_inv in H. destruct H as (body & r4 & -> & Hne & Hall & H).
    destruct (Re.strip ");" r4) as [r5|] eqn:H5; [|discriminate].
    apply strip_inv in H5. subst r4. injection H as <-.
    exists body, r5. rewrite !consumed_app. repeat split; assumption. }
  destruct (Re.strip "Video" r1) as [r2|] eqn:Hv.
  - apply strip_inv in Hv.
    match goal with
    | |- match ?x with _ => _ end = _ -> _ => destruct x as [m'|] eqn:Hrun
    end.
    + intros [= ->]. destruct (Htail "Video" r2 Hv Hrun) as (body & after & -> & ?).
      exists "Video", body, after. split; [reflexivity|]. split; [now left|assumption].
    + clear Hrun. subst r1. simpl. discriminate.
  - destruct (Re.strip "Audio" r1) as [r2|] eqn:Ha.
    + apply strip_inv in Ha.
      match goal with
      | |- match ?x with _ => _ end = _ -> _ => destruct x as [m'|] eqn:Hrun
      end.
      * intros [= ->]. destruct (Htail "Audio" r2 Ha Hrun) as (body & after & -> & ?).
        exists "Audio", body, after. split; [reflexivity|].
        split; [right; now left|assumption].
      * clear Hrun. subst r1. simpl. discriminate.
    + destruct (Re.strip "YouTube" r1) as [r2|] eqn:Hy; [|discriminate].
      apply strip_inv in Hy. intros Hrun.
      destruct (Htail "YouTube" r2 Hy Hrun) as (body & after & -> & ?).
      exists "YouTube", body, after. split; [reflexivity|].
      split; [right; right; now left|assumption].
Qed.

(** X14 — what [re.search] finds in a page for the inline data pattern is a
    real occurrence [inline<type>Data.push(<json_data>);] in the page, with
    [type] one of Video, Audio and YouTube and with [json_data] not empty and
    free of [)]: the captured text stops before the first closing
    parenthesis. *)
Theorem inline_data_match_shape (page : string) (m : Re.captures) :
  Re.search Patterns.inline_data page = Some m ->
  (exists before after,
      page = before ++ "inline" ++ Re.group m "type" ++ "Data.push("
             ++ Re.group m "json_data" ++ ");" ++ after)
  /\ In (Re.group m "type") ["Video"; "Audio"; "YouTube"]
  /\ Re.group m "json_data" <> EmptyString
  /\ all_chars (Re.none_of ")") (Re.group m "json_data") = true.
Proof.
  intros H. apply search_inv in H. destruct H as (before & s' & -> & H).
  apply inline_match_inv in H.
  destruct H as (type & body & after & -> & Htype & Hne & Hall & ->).
  cbn [Re.group String.eqb Ascii.eqb Bool.eqb]. cbv iota.
  repeat split; try assumption. now exists before, after.
Qed.

Lemma inline_data_match_shape_witness :
  In (Re.group [("json_data", "{url: 'http://mpegmedia.abc.net.au/a.mp4'}"); ("type", "Video")]
               "type")
     ["Video"; "Audio"; "YouTube"].
Proof.
  apply (inline_data_match_shape Scenario.inline_page).
  reflexivity.
Defined.

(** X15 — every page that holds an occurrence
    [inline<type>Data.push(<json_data>);], with [type] one of Video, Audio
    and YouTube and [json_data] not empty and free of [)], is recognised by
    the search for an inline data block. *)
Theorem inline_data_found (before type body after : string) :
  In type ["Video"; "Audio"; "YouTube"] ->
  body <> EmptyString ->
  all_chars (Re.none_of ")") body = true ->
  Re.search Patterns.inline_data
    (before ++ "inline" ++ type ++ "Data.push(" ++ body ++ ");" ++ after) <> None.
Proof.
  intros Htype Hne Hall. apply search_finds.
  assert (Htail : forall caps,
             Re.run (Re.Cat (Re.Lit "Data.push(")
                       (Re.Cat (Re.Group "json_data" (Re.ClassPlus (Re.none_of ")")))
                          (Re.Lit ");")))
               ("Data.push(" ++ body ++ ");" ++ after) caps
               (fun _ caps' => Some caps') <> None).
  { intros caps. cbn [Re.run]. rewrite strip_app.
    erewrite class_plus_all; [discriminate|exact Hne|exact Hall|reflexivity|].
    rewrite strip_app. reflexivity. }
  unfold Re.match_at, Patterns.inline_data. cbn [Re.run]. rewrite strip_app.
  destruct Htype as [<- | [<- | [<- | []]]].
  - rewrite strip_app.
    match goal with
    | |- match ?x with _ => _ end <> None =>
        destruct x eqn:Hrun; [discriminate|exfalso]
    end.
    revert Hrun. apply (Htail _).
  - change (Re.strip "Video" ("Audio" ++ "Data.push(" ++ body ++ ");" ++ after)) with
      (@None string).
    rewrite strip_app.
    match goal with
    | |- match ?x with _ => _ end <> None =>
        destruct x eqn:Hrun; [discriminate|exfalso]
    end.
    revert Hrun. apply (Htail _).
  - change (Re.strip "Video" ("YouTube" ++ "Data.push(" ++ body ++ ");" ++ after)) with
      (@None string).
    change (Re.strip "Audio" ("YouTube" ++ "Data.push(" ++ body ++ ");" ++ after)) with
      (@None string).
    rewrite strip_app. apply (Htail _).
Qed.

Lemma inline_data_found_witness :
  Re.search Patterns.inline_data
    ("<script>" ++ "inline" ++ "Audio" ++ "Data.push(" ++ "[{url: 'a.mp3'}]" ++ ");"
     ++ "</script>") <> None.
Proof.
  apply (inline_data_found "<script>" "Audio" "[{url: 'a.mp3'}]" "</script>").
  - right. left. reflexivity.
  - discriminate.
  - reflexivity.
Defined.

(** A greedy set whose continuation always succeeds takes the longest run. *)
Lemma class_plus_longest (p : ascii -> bool) (f : string -> Re.captures)
      (s : string) (m : Re.captures) :
  Re.class_plus p (fun rest => Some (f rest)) s = Some m ->
  exists body rest,
    s = body ++ rest /\ body <> EmptyString /\ all_chars p body = true /\ m = f rest
    /\ (rest = EmptyString \/ exists c r, rest = String c r /\ p c = false).
Proof.
  induction s as [|c s IH]; cbn [Re.class_plus]; [discriminate|].
  destruct (p c) eqn:Hc; [|discriminate].
  destruct (Re.class_plus p (fun rest => Some (f rest)) s) as [m'|] eqn:Hs.
  - intros [= ->]. destruct (IH eq_refl) as (body & rest & -> & _ & Hall & Hm & Hrest).
    exists (String c body), rest. cbn [all_chars append]. rewrite Hc, Hall.
    repeat split; auto. discriminate.
  - intros [= <-]. exists (String c EmptyString), s. cbn [all_chars append]. rewrite Hc.
    repeat split; auto; [discriminate|].
    destruct s as [|c' s']; [now left|right].
    exists c', s'. split; [reflexivity|].
    cbn [Re.class_plus] in Hs. destruct (p c'); [|reflexivity].
    now destruct (Re.class_plus p (fun rest => Some (f rest)) s').
Qed.

Lemma class_plus_stops (p : ascii -> bool) (k : string -> option Re.captures)
      (rest : string) :
  rest = EmptyString \/ (exists c r, rest = String c r /\ p c = false) ->
  Re.class_plus p k rest = None.
Proof.
  intros [-> | (c & r & -> & Hc)]; cbn [Re.class_plus]; [reflexivity|now rewrite Hc].
Qed.

(** X16 — a URL that [_VALID_URL] of [ABCIViewIE] matches is
    [http://] or [https://], then [iview.abc.net.au/programs/], a programme
    slug, a slash and the id; the id, which becomes the video id, is not
    empty, has no [/], [?] or [#], and runs up to the first such character
    or the end of the URL. *)
Theorem iview_url_shape (url : string) (m : Re.captures) :
  Re.match_at Patterns.iview_url url = Some m ->
  exists scheme slug rest,
    url = scheme ++ "://iview.abc.net.au/programs/" ++ slug ++ "/"
          ++ Re.group m "id" ++ rest
    /\ (scheme = "http" \/ scheme = "https")
    /\ slug <> EmptyString
    /\ all_chars (Re.none_of "/") slug = true
    /\ Re.group m "id" <> EmptyString
    /\ all_chars (Re.none_of "/?#") (Re.group m "id") = true
    /\ (rest = EmptyString \/ exists c r, rest = String c r /\ Re.none_of "/?#" c = false).
Proof.
  unfold Re.match_at, Patterns.iview_url. cbn [Re.run].
  destruct (Re.strip "http" url) as [r1|] eqn:H1; [|discriminate].
  apply strip_inv in H1. subst url.
  assert (Hhost : forall r,
             match Re.strip "://iview.abc.net.au/programs/" r with
             | Some rest =>
                 Re.class_plus (Re.none_of "/")
                   (fun rest0 =>
                      match Re.strip "/" rest0 with
                      | Some rest1 =>
                          Re.class_plus (Re.none_of "/?#")
                            (fun rest2 => Some [("id", Re.consumed rest1 rest2)]) rest1
                      | None => None
                      end) rest
             | None => None
             end = Some m ->
             exists slug rest,
               r = "://iview.abc.net.au/programs/" ++ slug ++ "/" ++ Re.group m "id" ++ rest
               /\ slug <> EmptyString
               /\ all_chars (Re.none_of "/") slug = true
               /\ Re.group m "id" <> EmptyString
               /\ all_chars (Re.none_of "/?#") (Re.group m "id") = true
               /\ (rest = EmptyString
                   \/ exists c r', rest = String c r' /\ Re.none_of "/?#" c = false)).
  { intros r H.
    destruct (Re.strip "://iview.abc.net.au/programs/" r) as [r3|] eqn:H3; [|discriminate].
    apply strip_inv in H3. subst r.
    apply class_plus_inv in H. destruct H as (slug & r4 & -> & Hslug & Hslugall & H).
    destruct (Re.strip "/" r4) as [r5|] eqn:H5; [|discriminate].
    apply strip_inv in H5. subst r4.
    apply class_plus_longest in H.
    destruct H as (id & rest & -> & Hid & Hidall & -> & Hrest).
    rewrite consumed_app. cbn [Re.group String.eqb Ascii.eqb Bool.eqb]. cbv iota.
    exists slug, rest. repeat split; assumption. }
  destruct (Re.strip "s" r1) as [r2|] eqn:Hs.
  - apply strip_inv in Hs.
    match goal with
    | |- match ?x with _ => _ end = _ -> _ => destruct x as [m'|] eqn:Hrun
    end.
    + intros [= ->]. destruct (Hhost r2 Hrun) as (slug & rest & -> & H).
      subst r1. exists "https", slug, rest. split; [reflexivity|].
      split; [now right|exact H].
    + intros Hrun'. destruct (Hhost r1 Hrun') as (slug & rest & Heq & _).
      rewrite Heq in Hs. discriminate.
  - intros Hrun. destruct (Hhost r1 Hrun) as (slug & rest & -> & H).
    exists "http", slug, rest. split; [reflexivity|]. split; [now left|exact H].
Qed.

Lemma iview_url_shape_witness :
  all_chars (Re.none_of "/?#") (Re.group [("id", "ZW0898A003S00")] "id") = true.
Proof.
  destruct (iview_url_shape Fixture.episode_url [("id", "ZW0898A003S00")])
    as (scheme & slug & rest & _ & _ & _ & _ & _ & Hid & _).
  - reflexivity.
  - exact Hid.
Defined.

(** X17 — conversely, every URL of that shape is matched, and the id
    captured is the whole last segment, up to the first [/], [?] or [#]. *)
Theorem iview_url_id (scheme slug id rest : string) :
  scheme = "http" \/ scheme = "https" ->
  slug <> EmptyString ->
  all_chars (Re.none_of "/") slug = true ->
  id <> EmptyString ->
  all_chars (Re.none_of "/?#") id = true ->
  rest = EmptyString \/ (exists c r, rest = String c r /\ Re.none_of "/?#" c = false) ->
  Re.match_at Patterns.iview_url
    (scheme ++ "://iview.abc.net.au/programs/" ++ slug ++ "/" ++ id ++ rest)
  = Some [("id", id)].
Proof.
  intros Hscheme Hslug Hslugall Hid Hidall Hrest.
  assert (Hhost :
            match Re.strip "://iview.abc.net.au/programs/"
                    ("://iview.abc.net.au/programs/" ++ slug ++ "/" ++ id ++ rest) with
            | Some rest0 =>
                Re.class_plus (Re.none_of "/")
                  (fun rest1 =>
                     match Re.strip "/" rest1 with
                     | Some rest2 =>
                         Re.class_plus (Re.none_of "/?#")
                           (fun rest3 => Some [("id", Re.consumed rest2 rest3)]) rest2
                     | None => None
                     end) rest0
            | None => None
            end = Some [("id", id)]).
  { rewrite strip_app.
    apply class_plus_all; [exact Hslug|exact Hslugall|reflexivity|].
    rewrite (strip_app "/").
    erewrite class_plus_all;
      [|exact Hid|exact Hidall|now apply class_plus_stops|reflexivity].
    now rewrite consumed_app. }
  unfold Re.match_at, Patterns.iview_url. cbn [Re.run].
  destruct Hscheme as [-> | ->].
  - rewrite (strip_app "http").
    change (Re.strip "s" ("://iview.abc.net.au/programs/" ++ slug ++ "/" ++ id ++ rest))
      with (@None string).
    exact Hhost.
  - change ("https" ++ "://iview.abc.net.au/programs/" ++ slug ++ "/" ++ id ++ rest)
      with ("http" ++ "s" ++ "://iview.abc.net.au/programs/" ++ slug ++ "/" ++ id ++ rest).
    rewrite (strip_app "http"), (strip_app "s").
    match goal with
    | |- match ?x with _ => _ end = _ =>
        replace x with (Some [("id", id)]) by (symmetry; exact Hhost)
    end.
    reflexivity.
Qed.

Lemma iview_url_id_witness :
  Re.match_at Patterns.iview_url
    ("https" ++ "://iview.abc.net.au/programs/" ++ "call-the-midwife" ++ "/"
     ++ "ZW0898A003S00" ++ "?autoplay=1")
  = Some [("id", "ZW0898A003S00")].
Proof.
  apply (iview_url_id "https" "call-the-midwife" "ZW0898A003S00" "?autoplay=1").
  - right. reflexivity.
  - discriminate.
  - reflexivity.
  - discriminate.
  - reflexivity.
  - right. exists "?"%char, "autoplay=1". split; reflexivity.
Defined.

(** X18 — with [re.search] read as above, the type captured on the page
    decides what an article gives: a playlist is returned only for a YouTube
    block, a record only for a Video or an Audio block. *)
Theorem block_type_decides_result
        (h : Host) (url video_id webpage : string) (w : World) (r : article_result) :
  searches_inline_data h ->
  article_page h url video_id webpage ->
  fst (ABCIE._real_extract h url w) = Ok r ->
  exists m,
    Re.search Patterns.inline_data webpage = Some m
    /\ match r with
       | playlist_result _ => Re.group m "type" = "YouTube"
       | info_dict _ => Re.group m "type" = "Video" \/ Re.group m "type" = "Audio"
       end.
Proof.
  intros Hsearch Hpage. article_start Hpage. rewrite Hsearch.
  destruct (Re.search Patterns.inline_data webpage) as [m|] eqn:Hm; cbn [option_map].
  - intros H. exists m. split; [reflexivity|].
    invert_lift H.
    destruct (Re.group m "type" =? "YouTube")%string eqn:Htype.
    + invert_lift H. injection H as <-. now apply String.eqb_eq.
    + invert_lift H. invert_lift H. invert_lift H. injection H as <-.
      apply search_inv in Hm. destruct Hm as (before & s' & _ & Hm).
      apply inline_match_inv in Hm.
      destruct Hm as (type & body & after & _ & Hin & _ & _ & ->).
      cbn [Re.group String.eqb Ascii.eqb Bool.eqb] in Htype |- *. cbv iota in Htype |- *.
      destruct Hin as [<- | [<- | [<- | []]]]; [now left|now right|discriminate].
  - destruct (truthy _); discriminate.
Qed.

Lemma block_type_decides_result_witness :
  exists m,
    Re.search Patterns.inline_data Scenario.inline_page = Some m
    /\ (Re.group m "type" = "Video" \/ Re.group m "type" = "Audio").
Proof.
  apply (block_type_decides_result Scenario.searched_article Fixture.article_url
           "5868334" Scenario.inline_page Fixture.w0 (info_dict Scenario.searched_info)).
  - intros text. reflexivity.
  - split; reflexivity.
  - reflexivity.
Defined.

(** X19 — a configuration whose [title] is missing or empty and that has no
    [seriesTitle] ends the extraction with [KeyError('seriesTitle')], before
    the playlist is looked at and with nothing asked but the page. *)
Theorem title_and_series_title_missing
        (h : Host) (url video_id webpage : string)
        (items : list (string * json)) (w : World) :
  catchup_page h url video_id webpage (JObj items) ->
  truthy (field (JObj items) "title") = false ->
  lookup "seriesTitle" items = None ->
  ABCIViewIE._real_extract h url w
  = (Raise (KeyError "seriesTitle"), asked w [WebpageRequest url video_id]).
Proof.
  intros (params_text & Hid & Hpage & Hre & Hjson) Htitle Hseries.
  unfold ABCIViewIE._real_extract.
  rewrite (bind_lift_ok _ _ _ _ Hid), bind_download, Hpage.
  rewrite (bind_lift_ok _ _ _ _ Hre), (bind_lift_ok _ _ _ _ Hjson).
  rewrite bind_lift.
  replace (get (JObj items) "title") with (Ok (field (JObj items) "title"))
    by (unfold get, get_default, field; now destruct (lookup "title" items)).
  cbn [rbind]. unfold py_or. rewrite Htitle. cbn [getitem]. now rewrite Hseries.
Qed.

Lemma title_and_series_title_missing_witness :
  ABCIViewIE._real_extract
    (Fixture.host "ZW0898A003S00" Fixture.episode_page None None
       (JObj [ ("title", JStr EmptyString); ("playlist", JList [ Fixture.preroll ]) ])
       Fixture.manifest)
    Fixture.episode_url Fixture.w0
  = (Raise (KeyError "seriesTitle"),
     asked Fixture.w0 [WebpageRequest Fixture.episode_url "ZW0898A003S00"]).
Proof.
  apply (title_and_series_title_missing
           (Fixture.host "ZW0898A003S00" Fixture.episode_page None None
              (JObj [ ("title", JStr EmptyString); ("playlist", JList [ Fixture.preroll ]) ])
              Fixture.manifest)
           Fixture.episode_url "ZW0898A003S00" Fixture.episode_page
           [ ("title", JStr EmptyString); ("playlist", JList [ Fixture.preroll ]) ]).
  - exists "{...}". split; [|split; [|split]]; reflexivity.
  - reflexivity.
  - reflexivity.
Defined.

(** ** The tiers within the extraction *)

Lemma getitem_fails_field (d : json) (key : string) (e : exn) :
  getitem d key = Raise e -> field d key = JNull.
Proof.
  destruct d; try reflexivity. unfold getitem, field.
  now destruct (lookup key items).
Qed.

(** The getter of the extractor finds a tier's URL exactly where the entry
    has one. *)
Lemma tier_url_is_hls_url (stream : json) (sd : string) :
  tier_url stream sd = hls_url stream sd.
Proof.
  unfold tier_url, hls_url, ABCIViewIE.hls_getter, rbind.
  destruct (getitem stream "streams") as [streams|e1] eqn:H1.
  - destruct (getitem_dict _ _ _ H1) as [-> _].
    destruct (getitem streams "hls") as [hls|e2] eqn:H2.
    + destruct (getitem_dict _ _ _ H2) as [-> _].
      destruct (getitem hls sd) as [v|e3] eqn:H3.
      * now destruct (getitem_dict _ _ _ H3) as [-> _].
      * now rewrite (getitem_fails_field _ _ _ H3).
    + now rewrite (getitem_fails_field _ _ _ H2).
  - now rewrite (getitem_fails_field _ _ _ H1).
Qed.

Lemma tiers_loop_plan (h : Host) (stream : json) (token video_id : string) (w : World) :
  ABCIViewIE.tiers_loop h stream token video_id ["sd"; "sd-low"] None w
  = match tier_plan h stream token video_id with
    | Some (manifests, formats) => (Ok (Some formats), asked w manifests)
    | None => (Ok None, w)
    end.
Proof.
  rewrite tiers_loop_table, !tier_url_is_hls_url. unfold tier_plan.
  destruct (hls_url stream "sd") as [sd|], (hls_url stream "sd-low") as [sd_low|];
    try reflexivity.
  now destruct (extract_m3u8_formats h _ video_id "mp4" "m3u8_native" "hls").
Qed.

(** The whole extraction of an episode, once the token is there: the
    manifests of the plan are asked for after the page and the token, and
    what the plan keeps is handed to [_sort_formats]. *)
Lemma extract_by_plan
      (h : Host) (url video_id webpage : string)
      (video_params title stream : json) (token : string) (w : World) :
  catchup_page h url video_id webpage video_params ->
  title_of video_params = Ok title ->
  program_of video_params = Ok stream ->
  (let path := ABCIViewIE.sign_path h (clock w) (field video_params "episodeHouseNumber") in
   download h (ABCIViewIE.token_url path (ABCIViewIE.signature path)) video_id = Ok token) ->
  let path := ABCIViewIE.sign_path h (clock w) (field video_params "episodeHouseNumber") in
  let first :=
    [ WebpageRequest url video_id;
      WebpageRequest (ABCIViewIE.token_url path (ABCIViewIE.signature path)) video_id ] in
  ABCIViewIE._real_extract h url w
  = match tier_plan h stream token video_id with
    | Some (manifests, formats) =>
        (sorted <~ sort_formats h formats ;;
         assemble h video_id webpage video_params title stream sorted,
         asked w (first ++ manifests)%list)
    | None => (Raise (UnboundLocalError "formats"), asked w first)
    end.
Proof.
  intros (params_text & Hid & Hpage & Hre & Hjson) Htitle Hstream Htoken path first.
  pose proof (title_of_dict _ _ Htitle) as Hget.
  unfold ABCIViewIE._real_extract.
  rewrite (bind_lift_ok _ _ _ _ Hid), bind_download, Hpage.
  rewrite (bind_lift_ok _ _ _ _ Hre), (bind_lift_ok _ _ _ _ Hjson).
  rewrite (bind_lift_ok _ _ _ _ Htitle), (bind_lift_ok _ _ _ _ Hstream).
  rewrite (bind_lift_ok _ _ _ _ (Hget "episodeHouseNumber")).
  rewrite bind_time. cbn [asked clock]. cbv zeta in Htoken |- *. fold path in Htoken |- *.
  rewrite bind_download, Htoken, asked_asked.
  change ([WebpageRequest url video_id]
          ++ [WebpageRequest (ABCIViewIE.token_url path (ABCIViewIE.signature path))
                video_id])%list with first.
  pose proof (tiers_loop_plan h stream token video_id (asked w first)) as Hloop.
  destruct (tier_plan h stream token video_id) as [[manifests formats]|];
    rewrite (bind_ok _ _ _ _ _ Hloop); [|reflexivity].
  rewrite asked_asked, bind_lift.
  destruct (sort_formats h formats) as [sorted|e]; [|reflexivity].
  cbn [rbind]. unfold assemble.
  rewrite bind_lift.
  destruct (get_default stream "captions" (JObj [])) as [captions|e]; [|reflexivity].
  cbn [rbind]. rewrite bind_lift.
  destruct (get captions "src-vtt") as [src_vtt|e]; [|reflexivity].
  cbn [rbind]. cbv zeta.
  rewrite (bind_lift_ok _ _ _ _ (Hget "eventDuration")).
  rewrite (bind_lift_ok _ _ _ _ (Hget "pubDate")).
  rewrite bind_lift.
  destruct (parse_iso8601 h (field video_params "pubDate") " ") as [timestamp|e];
    [|reflexivity].
  cbn [rbind]. rewrite (bind_lift_ok _ _ _ _ (Hget "seriesTitle")).
  rewrite bind_lift, (Hget "seriesHouseNumber"). cbn [rbind].
  destruct (py_or (field video_params "seriesHouseNumber")
              (Ok (JStr (slice_to 7 video_id)))) as [series_id|e]; [|reflexivity].
  now rewrite (bind_lift_ok _ _ _ _ (Hget "channel")).
Qed.

Lemma assemble_formats (h : Host) (video_id webpage : string)
      (video_params title stream : json) (formats : list MediaFormat.t)
      (info : Episode.t) :
  assemble h video_id webpage video_params title stream formats = Ok info ->
  Episode.formats info = formats.
Proof.
  unfold assemble, rbind.
  repeat match goal with
         | |- match ?x with _ => _ end = _ -> _ => destruct x; [|discriminate]
         end.
  now intros [= <-].
Qed.

(** C2 — in the extraction of an episode the tiers are tried in the order
    "sd", "sd-low", after the page and the token have been fetched: a tier of
    the programme entry without a URL is skipped without a request, a tier
    with one has its manifest asked for and parsed, and the first tier whose
    manifest holds a format ends the search, so that "sd-low" is asked for
    exactly when "sd" has no URL or gives nothing.  The formats of the last
    tier tried are what [_sort_formats] receives: a failure it declares
    comes after every attempt, and a record that is returned holds what it
    made of those formats. *)
Theorem tiers_tried_in_order
        (h : Host) (url video_id webpage : string)
        (video_params title stream : json) (token : string) (w : World) :
  catchup_page h url video_id webpage video_params ->
  title_of video_params = Ok title ->
  program_of video_params = Ok stream ->
  (let path := ABCIViewIE.sign_path h (clock w) (field video_params "episodeHouseNumber") in
   download h (ABCIViewIE.token_url path (ABCIViewIE.signature path)) video_id = Ok token) ->
  let path := ABCIViewIE.sign_path h (clock w) (field video_params "episodeHouseNumber") in
  let first :=
    [ WebpageRequest url video_id;
      WebpageRequest (ABCIViewIE.token_url path (ABCIViewIE.signature path)) video_id ] in
  let m3u8_url u := update_url_query h u [("hdnea", token)] in
  let parse u := extract_m3u8_formats h (m3u8_url u) video_id "mp4" "m3u8_native" "hls" in
  let req u := ManifestRequest (m3u8_url u) video_id in
  let run := ABCIViewIE._real_extract h url w in
  let tried manifests formats :=
    requests (snd run) = (requests w ++ first ++ manifests)%list
    /\ (forall e, sort_formats h formats = Raise e -> fst run = Raise e)
    /\ (forall info, fst run = Ok info -> sort_formats h formats = Ok (Episode.formats info)) in
  match hls_url stream "sd", hls_url stream "sd-low" with
  | Some sd, Some sd_low =>
      match parse sd with
      | _ :: _ => tried [req sd] (parse sd)
      | [] => tried [req sd; req sd_low] (parse sd_low)
      end
  | Some sd, None => tried [req sd] (parse sd)
  | None, Some sd_low => tried [req sd_low] (parse sd_low)
  | None, None => run = (Raise (UnboundLocalError "formats"), asked w first)
  end.
Proof.
  intros Hpage Htitle Hstream Htoken path first m3u8_url parse req run tried.
  pose proof (extract_by_plan h url video_id webpage video_params title stream token w
                Hpage Htitle Hstream Htoken) as Hrun.
  cbv zeta in Hrun. fold path first run in Hrun.
  assert (Htried : forall manifests formats,
             run = (sorted <~ sort_formats h formats ;;
                    assemble h video_id webpage video_params title stream sorted,
                    asked w (first ++ manifests)%list) ->
             tried manifests formats).
  { intros manifests formats ->. unfold tried. cbn [fst snd asked requests].
    split; [reflexivity|]. split.
    - now intros e ->.
    - intros info. destruct (sort_formats h formats) as [sorted|e]; [|discriminate].
      cbn [rbind]. intros Hinfo. now rewrite (assemble_formats _ _ _ _ _ _ _ _ Hinfo). }
  unfold tier_plan in Hrun. cbv zeta in Hrun. unfold parse, req, m3u8_url.
  destruct (hls_url stream "sd") as [sd|], (hls_url stream "sd-low") as [sd_low|].
  - destruct (extract_m3u8_formats h (update_url_query h sd [("hdnea", token)])
                video_id "mp4" "m3u8_native" "hls");
      apply Htried; exact Hrun.
  - apply Htried; exact Hrun.
  - apply Htried; exact Hrun.
  - exact Hrun.
Qed.

Lemma tiers_tried_in_order_witness :
  requests (snd (ABCIViewIE._real_extract Scenario.fallback_episode Fixture.episode_url
                   Fixture.w0))
  = [ WebpageRequest Fixture.episode_url "ZW0898A003S00";
      WebpageRequest
        ("http://iview.abc.net.au/auth/hls/sign?ts=1514499187&hn=ZW0898A003S00&d=android-mobile&sig="
         ++ "7678c12bf5fe5e652ba34ffb42dbd56874cfc563b8b7fd470b50a23a6a2d0b17")
        "ZW0898A003S00";
      ManifestRequest ("http://iviewhls-i.akamaihd.net/sd.m3u8?hdnea=" ++ Fixture.token)
        "ZW0898A003S00";
      ManifestRequest ("http://iviewhls-i.akamaihd.net/sd-low.m3u8?hdnea=" ++ Fixture.token)
        "ZW0898A003S00" ].
Proof.
  pose proof (tiers_tried_in_order Scenario.fallback_episode Fixture.episode_url
                "ZW0898A003S00" Fixture.episode_page
                (Fixture.episode_params [ ("episodeHouseNumber", JStr "ZW0898A003S00") ]
                   [ Fixture.preroll; Fixture.program_entry Fixture.both_tiers ])
                (JStr "Series 5 Ep 3") (Fixture.program_entry Fixture.both_tiers)
                Fixture.token Fixture.w0) as H.
  destruct H as [Hlog _].
  - exists "{...}". split; [|split; [|split]]; reflexivity.
  - reflexivity.
  - reflexivity.
  - reflexivity.
  - rewrite Hlog. vm_compute. reflexivity.
Defined.

(** X7 — a programme entry whose [captions] is there but is not a dict
    (JSON [null], say) breaks the extraction after the formats have been
    found and sorted, whichever tier they came from: the page, the token and
    the manifests have been asked for, [_sort_formats] has accepted the
    formats, and then [.get('src-vtt')] raises [AttributeError]; no record
    is returned. *)
Theorem captions_not_a_dict
        (h : Host) (url video_id webpage : string)
        (video_params title stream : json) (token : string)
        (manifests : list request) (formats sorted : list MediaFormat.t)
        (captions : json) (e : exn) (w : World) :
  catchup_page h url video_id webpage video_params ->
  title_of video_params = Ok title ->
  program_of video_params = Ok stream ->
  (let path := ABCIViewIE.sign_path h (clock w) (field video_params "episodeHouseNumber") in
   download h (ABCIViewIE.token_url path (ABCIViewIE.signature path)) video_id = Ok token) ->
  tier_plan h stream token video_id = Some (manifests, formats) ->
  sort_formats h formats = Ok sorted ->
  getitem stream "captions" = Ok captions ->
  get captions "src-vtt" = Raise e ->
  let path := ABCIViewIE.sign_path h (clock w) (field video_params "episodeHouseNumber") in
  ABCIViewIE._real_extract h url w
  = (Raise (AttributeError "get"),
     asked w ([ WebpageRequest url video_id;
                WebpageRequest (ABCIViewIE.token_url path (ABCIViewIE.signature path))
                  video_id ] ++ manifests)%list)
  /\ manifests <> [].
Proof.
  intros Hpage Htitle Hstream Htoken Hplan Hsort Hcaptions Hvtt path.
  split.
  - rewrite (extract_by_plan h url video_id webpage video_params title stream token w
               Hpage Htitle Hstream Htoken).
    cbv zeta. fold path. rewrite Hplan, Hsort. cbn [rbind]. f_equal.
    unfold assemble.
    assert (Hdefault : get_default stream "captions" (JObj []) = Ok captions).
    { unfold getitem in Hcaptions. unfold get_default.
      destruct stream; try discriminate.
      destruct (lookup "captions" items); [exact Hcaptions|discriminate]. }
    rewrite Hdefault. cbn [rbind].
    destruct captions as [| | | | | |citems]; try reflexivity.
    exfalso. unfold get, get_default in Hvtt.
    destruct (lookup "src-vtt" citems); discriminate.
  - unfold tier_plan in Hplan.
    destruct (hls_url stream "sd"), (hls_url stream "sd-low"); try discriminate;
      try (injection Hplan as <- _; discriminate).
    destruct (extract_m3u8_formats h _ video_id "mp4" "m3u8_native" "hls");
      injection Hplan as <- _; discriminate.
Qed.

Lemma captions_not_a_dict_witness :
  ABCIViewIE._real_extract Scenario.low_null_captions_episode Fixture.episode_url Fixture.w0
  = (Raise (AttributeError "get"),
     MkWorld 1514499187
       [ WebpageRequest Fixture.episode_url "ZW0898A003S00";
         WebpageRequest
           ("http://iview.abc.net.au/auth/hls/sign?ts=1514499187&hn=ZW0898A003S00&d=android-mobile&sig="
            ++ "7678c12bf5fe5e652ba34ffb42dbd56874cfc563b8b7fd470b50a23a6a2d0b17")
           "ZW0898A003S00";
         ManifestRequest ("http://iviewhls-i.akamaihd.net/sd-low.m3u8?hdnea=" ++ Fixture.token)
           "ZW0898A003S00" ]).
Proof.
  destruct (captions_not_a_dict Scenario.low_null_captions_episode Fixture.episode_url
              "ZW0898A003S00" Fixture.episode_page
              (Fixture.episode_params [ ("episodeHouseNumber", JStr "ZW0898A003S00") ]
                 [ Scenario.low_uncaptioned_entry ])
              (JStr "Series 5 Ep 3") Scenario.low_uncaptioned_entry Fixture.token
              [ ManifestRequest
                  ("http://iviewhls-i.akamaihd.net/sd-low.m3u8?hdnea=" ++ Fixture.token)
                  "ZW0898A003S00" ]
              [ Fixture.hls_format
                  ("http://iviewhls-i.akamaihd.net/sd-low.m3u8?hdnea=" ++ Fixture.token) ]
              [ Fixture.hls_format
                  ("http://iviewhls-i.akamaihd.net/sd-low.m3u8?hdnea=" ++ Fixture.token) ]
              JNull (AttributeError "get") Fixture.w0) as [Hrun _].
  - exists "{...}". split; [|split; [|split]]; reflexivity.
  - reflexivity.
  - reflexivity.
  - reflexivity.
  - reflexivity.
  - reflexivity.
  - reflexivity.
  - reflexivity.
  - rewrite Hrun. vm_compute. reflexivity.
Defined.
